(** * ray.data.block: batch formats, block metadata, execution statistics
      and the block dispatcher of [python/ray/data/block.py].

    The Python module is embedded shallowly.  Python objects are values
    tagged with their runtime class, so that [isinstance] is a function;
    exceptions are an inductive type and a call either returns or raises;
    the process-wide log registry used by [batch_to_block] is threaded as
    explicit state.  Functions of other modules (the Arrow and pandas
    engines, [_truncated_repr], [_check_pyarrow_version], the OS
    interfaces) are fields of a record of collaborators that the embedded
    functions receive as an argument. *)

From Stdlib Require Import ZArith List String Ascii Bool Lia.
From stdpp Require Import base decidable gmap strings.
Import ListNotations.

Local Open Scope string_scope.

(** ** Python runtime: classes, values, exceptions *)

Module Py.

(** The classes this module tests with [isinstance], and any other class
    by its qualified name. *)
Inductive pyclass : Type :=
| c_object
| c_NoneType
| c_int
| c_bool
| c_float
| c_str
| c_bytes
| c_list
| c_dict
| c_Mapping        (* collections.abc.Mapping *)
| c_ndarray        (* numpy.ndarray *)
| c_np_int64       (* numpy.int64 *)
| c_pa_Table       (* pyarrow.Table *)
| c_pd_DataFrame   (* pandas.DataFrame *)
| c_other (qualname : string).

Definition pyclass_eqb (a b : pyclass) : bool :=
  match a, b with
  | c_object, c_object | c_NoneType, c_NoneType | c_int, c_int
  | c_bool, c_bool | c_float, c_float | c_str, c_str | c_bytes, c_bytes
  | c_list, c_list | c_dict, c_dict | c_Mapping, c_Mapping
  | c_ndarray, c_ndarray | c_np_int64, c_np_int64
  | c_pa_Table, c_pa_Table | c_pd_DataFrame, c_pd_DataFrame => true
  | c_other x, c_other y => String.eqb x y
  | _, _ => false
  end.

Definition qualname (c : pyclass) : string :=
  match c with
  | c_object => "object"
  | c_NoneType => "NoneType"
  | c_int => "int"
  | c_bool => "bool"
  | c_float => "float"
  | c_str => "str"
  | c_bytes => "bytes"
  | c_list => "list"
  | c_dict => "dict"
  | c_Mapping => "collections.abc.Mapping"
  | c_ndarray => "numpy.ndarray"
  | c_np_int64 => "numpy.int64"
  | c_pa_Table => "pyarrow.lib.Table"
  | c_pd_DataFrame => "pandas.core.frame.DataFrame"
  | c_other q => q
  end.

(** A runtime type: the class of the object and every class the object is
    an instance of (its method resolution order, and the abstract base
    classes it is registered with). *)
Record pytype : Type := PyType {
  tp_class : pyclass;
  tp_mro : list pyclass
}.

(** What an object holds; the dispatchers below never look inside. *)
Inductive pydata : Type :=
| DUnit
| DInt (n : Z)
| DStr (s : string)
| DBytes (b : list Byte.byte)
| DSeq (xs : list Z)
| DColumns (cols : list (string * list Z)).

Record pyval : Type := PyVal {
  py_type : pytype;
  py_data : pydata
}.

(** [type(v)] *)
Definition type_of (v : pyval) : pyclass := tp_class (py_type v).

(** [isinstance(v, c)] *)
Definition isinstance (v : pyval) (c : pyclass) : bool :=
  pyclass_eqb (type_of v) c || existsb (pyclass_eqb c) (tp_mro (py_type v)).

(** [v is None]: [None] is the only instance of [NoneType]. *)
Definition is_None (v : pyval) : bool := pyclass_eqb (type_of v) c_NoneType.

(** [str(type(v))] *)
Definition str_of_type (c : pyclass) : string :=
  "<class '" ++ qualname c ++ "'>".

(** Values of the built-in and library classes. *)
Definition None_ : pyval := PyVal (PyType c_NoneType [c_NoneType; c_object]) DUnit.
Definition int_ (n : Z) : pyval := PyVal (PyType c_int [c_int; c_object]) (DInt n).
Definition bool_ (b : bool) : pyval :=
  PyVal (PyType c_bool [c_bool; c_int; c_object]) (DInt (if b then 1 else 0)).
Definition str_ (s : string) : pyval := PyVal (PyType c_str [c_str; c_object]) (DStr s).
Definition bytes_ (b : list Byte.byte) : pyval :=
  PyVal (PyType c_bytes [c_bytes; c_object]) (DBytes b).
Definition list_ (xs : list Z) : pyval :=
  PyVal (PyType c_list [c_list; c_object]) (DSeq xs).
Definition dict_ (cols : list (string * list Z)) : pyval :=
  PyVal (PyType c_dict [c_dict; c_Mapping; c_object]) (DColumns cols).
Definition ndarray_ (xs : list Z) : pyval :=
  PyVal (PyType c_ndarray [c_ndarray; c_object]) (DSeq xs).
(** [numpy.int64] derives from [numpy.signedinteger], not from [int]. *)
Definition np_int64_ (n : Z) : pyval :=
  PyVal (PyType c_np_int64
           [c_np_int64; c_other "numpy.signedinteger"; c_other "numpy.integer";
            c_other "numpy.number"; c_other "numpy.generic"; c_object])
        (DInt n).
Definition Table_ (cols : list (string * list Z)) : pyval :=
  PyVal (PyType c_pa_Table [c_pa_Table; c_object]) (DColumns cols).
Definition DataFrame_ (cols : list (string * list Z)) : pyval :=
  PyVal (PyType c_pd_DataFrame [c_pd_DataFrame; c_object]) (DColumns cols).

(** Exceptions. *)
Inductive pyexn : Type :=
| ValueError (msg : string)
| TypeError (msg : string)
| AssertionError
| NotImplementedError
| ImportError (msg : string)
| ArrowConversionError (data_str : string)
| OtherException (cls : string) (msg : string).

(** [str(e)] *)
Definition str_of_exn (e : pyexn) : string :=
  match e with
  | ValueError m | TypeError m | ImportError m | OtherException _ m => m
  | AssertionError | NotImplementedError => ""
  | ArrowConversionError d =>
      "Error converting data to Arrow: " ++ d
  end.

(** A call returns a value or raises. *)
Inductive outcome (A : Type) : Type :=
| Return (a : A)
| Raise (e : pyexn).
Arguments Return {A} a.
Arguments Raise {A} e.

Definition obind {A B} (c : outcome A) (k : A -> outcome B) : outcome B :=
  match c with
  | Return a => k a
  | Raise e => Raise e
  end.

(** [assert b] *)
Definition assert_ (b : bool) : outcome unit :=
  if b then Return tt else Raise AssertionError.

(** Formatting: [repr] of an optional string and of a list of them, [str]
    of an optional string.  [repr_str] is Python's [repr] on strings with
    no quote, backslash or control character, which is all this module
    formats with it. *)
Definition repr_str (s : string) : string := "'" ++ s ++ "'".

Definition repr_opt (x : option string) : string :=
  match x with
  | None => "None"
  | Some s => repr_str s
  end.

Definition str_opt (x : option string) : string :=
  match x with
  | None => "None"
  | Some s => s
  end.

Fixpoint join (sep : string) (xs : list string) : string :=
  match xs with
  | [] => ""
  | [x] => x
  | x :: rest => x ++ sep ++ join sep rest
  end.

Definition repr_list (xs : list (option string)) : string :=
  "[" ++ join ", " (map repr_opt xs) ++ "]".

(** [x in xs] on a list of optional strings. *)
Definition opt_eqb (x y : option string) : bool :=
  match x, y with
  | None, None => true
  | Some a, Some b => String.eqb a b
  | _, _ => false
  end.

Definition py_in (x : option string) (xs : list (option string)) : bool :=
  existsb (opt_eqb x) xs.

(** [needle in hay] on strings. *)
Fixpoint starts_with (needle hay : string) : bool :=
  match needle, hay with
  | EmptyString, _ => true
  | String a n', String b h' => Ascii.eqb a b && starts_with n' h'
  | String _ _, EmptyString => false
  end.

Fixpoint contains (needle hay : string) : bool :=
  starts_with needle hay ||
  match hay with
  | EmptyString => false
  | String _ h' => contains needle h'
  end.

End Py.
Import Py.

#[global] Instance outcome_ret : MRet outcome := @Return.
#[global] Instance outcome_bind : MBind outcome :=
  fun A B k c => obind c k.

(** ** Batch formats (lines 111-123) *)

Definition VALID_BATCH_FORMATS : list (option string) :=
  [Some "pandas"; Some "pyarrow"; Some "numpy"; None].
Definition DEFAULT_BATCH_FORMAT : string := "numpy".

Definition _apply_batch_format (given_batch_format : option string)
  : outcome (option string) :=
  let given_batch_format :=
    if opt_eqb given_batch_format (Some "default")
    then Some DEFAULT_BATCH_FORMAT
    else given_batch_format in
  if negb (py_in given_batch_format VALID_BATCH_FORMATS) then
    Raise (ValueError
      ("The given batch format " ++ str_opt given_batch_format
       ++ " isn't allowed (must be one of"
       ++ " " ++ repr_list VALID_BATCH_FORMATS ++ ")."))
  else Return given_batch_format.

(** The values [_apply_batch_format] lets through. *)
Definition accepted_batch_formats : list (option string) :=
  [None; Some "default"; Some "pandas"; Some "pyarrow"; Some "numpy"].

(** The values [to_batch_format] has a branch for. *)
Definition dispatched_batch_formats : list (option string) :=
  [None; Some "default"; Some "native"; Some "pandas"; Some "pyarrow";
   Some "numpy"].

(** ** Floating-point readings

    A finite binary64 value is kept as [mant * 2 ^ expo].  Every operation
    rounds its exact result to 53 significant bits, to nearest and ties to
    even.  Overflow to infinity and gradual underflow are left out: the
    values here are clock readings, their differences, and a C [long]
    times one thousand. *)

Module Float.

Record t : Type := mk { mant : Z; expo : Z }.

Definition round (m e : Z) : t :=
  let a := Z.abs m in
  let k := (Z.log2 a - 52)%Z in
  if (k <=? 0)%Z then mk m e
  else
    let q := (a / 2 ^ k)%Z in
    let r := (a mod 2 ^ k)%Z in
    let h := (2 ^ (k - 1))%Z in
    let q' :=
      if (r <? h)%Z then q
      else if (h <? r)%Z then (q + 1)%Z
      else if Z.even q then q else (q + 1)%Z in
    mk (Z.sgn m * q') (e + k).

(** [float(n)] for an [int] *)
Definition of_int (n : Z) : t := round n 0.

Definition mul (x y : t) : t :=
  round (mant x * mant y) (expo x + expo y).

Definition sub (x y : t) : t :=
  let e := Z.min (expo x) (expo y) in
  round (mant x * 2 ^ (expo x - e) - mant y * 2 ^ (expo y - e)) e.

(** [int(x)]: truncation towards zero *)
Definition to_int (x : t) : Z :=
  if (0 <=? expo x)%Z then (mant x * 2 ^ expo x)%Z
  else Z.quot (mant x) (2 ^ (- expo x)).

(** The literal [1e3]. *)
Definition lit_1e3 : t := mk 1000 0.

(** [n * x] for an [int] [n] and a [float] [x]: the [int] is converted. *)
Definition int_mul (n : Z) (x : t) : t := mul (of_int n) x.

End Float.

(** ** Execution statistics (lines 135-202) *)

(** What the process reads from its host when it builds statistics: the
    two clocks, the [resource] module ([None] where its import failed)
    with the [ru_maxrss] field of [getrusage(RUSAGE_SELF)], the resident
    set size [psutil] reports for this process, and the node id of the
    runtime context. *)
Record Host : Type := {
  perf_counter : Float.t;
  process_time : Float.t;
  resource : option Z;
  psutil_rss : Z;
  get_node_id : string
}.

Module BlockExecStats.

Record t : Type := mk {
  start_time_s : option Float.t;
  end_time_s : option Float.t;
  wall_time_s : option Float.t;
  udf_time_s : option Float.t;
  cpu_time_s : option Float.t;
  node_id : string;
  max_rss_bytes : Z;
  task_idx : option Z
}.

Definition __init__ (host : Host) : t :=
  {| start_time_s := None;
     end_time_s := None;
     wall_time_s := None;
     udf_time_s := Some (Float.of_int 0);
     cpu_time_s := None;
     node_id := get_node_id host;
     max_rss_bytes := 0;
     task_idx := None |}.

End BlockExecStats.

Module _BlockExecStatsBuilder.

Record t : Type := mk {
  start_time : Float.t;
  start_cpu : Float.t;
  end_time : option Float.t;
  end_cpu : option Float.t
}.

Definition __init__ (host : Host) : t :=
  {| start_time := perf_counter host;
     start_cpu := process_time host;
     end_time := None;
     end_cpu := None |}.

(** [build] returns the statistics and the builder with its end readings
    set. *)
Definition build (self : t) (host : Host) : BlockExecStats.t * t :=
  let self := {| start_time := start_time self;
                 start_cpu := start_cpu self;
                 end_time := Some (perf_counter host);
                 end_cpu := Some (process_time host) |} in
  let stats := BlockExecStats.__init__ host in
  let max_rss :=
    match resource host with
    | None => psutil_rss host
    | Some ru_maxrss => Float.to_int (Float.int_mul ru_maxrss Float.lit_1e3)
    end in
  ({| BlockExecStats.start_time_s := Some (start_time self);
      BlockExecStats.end_time_s := Some (perf_counter host);
      BlockExecStats.wall_time_s :=
        Some (Float.sub (perf_counter host) (start_time self));
      BlockExecStats.udf_time_s := BlockExecStats.udf_time_s stats;
      BlockExecStats.cpu_time_s :=
        Some (Float.sub (process_time host) (start_cpu self));
      BlockExecStats.node_id := BlockExecStats.node_id stats;
      BlockExecStats.max_rss_bytes := max_rss;
      BlockExecStats.task_idx := BlockExecStats.task_idx stats |},
   self).

End _BlockExecStatsBuilder.

(** ** Block metadata (lines 205-228) *)

Module BlockMetadata.

(** The fields as the dataclass declares them.  [size_bytes] is whatever
    object the caller passed, since [__post_init__] tests its class. *)
Record t : Type := mk {
  num_rows : option Z;
  size_bytes : pyval;
  schema : option pyval;
  input_files : option (list string);
  exec_stats : option BlockExecStats.t
}.

Definition __post_init__ (self : t) : outcome t :=
  let self :=
    match input_files self with
    | None => {| num_rows := num_rows self;
                 size_bytes := size_bytes self;
                 schema := schema self;
                 input_files := Some [];
                 exec_stats := exec_stats self |}
    | Some _ => self
    end in
  if negb (is_None (size_bytes self)) then
    _ ← assert_ (isinstance (size_bytes self) c_int);
    Return self
  else Return self.

(** The constructor the [dataclass] decorator generates. *)
Definition __init__ (num_rows : option Z) (size_bytes : pyval)
    (schema : option pyval) (input_files : option (list string))
    (exec_stats : option BlockExecStats.t) : outcome t :=
  __post_init__ (mk num_rows size_bytes schema input_files exec_stats).

End BlockMetadata.

(** ** The accessor interface (lines 231-365) *)

Inductive BlockType : Type := ARROW | PANDAS.

Definition BlockType_eqb (a b : BlockType) : bool :=
  match a, b with
  | ARROW, ARROW | PANDAS, PANDAS => true
  | _, _ => false
  end.

(** The methods a concrete accessor supplies.  [to_default] is the one
    method with a body in the base class: a subclass either overrides it
    or inherits that body. *)
Class BlockAccessor (Self : Type) : Type := {
  num_rows : Self -> outcome Z;
  to_pandas : Self -> outcome pyval;
  to_numpy : Self -> option (list string) -> outcome pyval;
  to_arrow : Self -> outcome pyval;
  to_block : Self -> outcome pyval;
  to_default_override : option (Self -> outcome pyval);
  size_bytes : Self -> outcome pyval;
  schema : Self -> outcome pyval
}.

(** The base class itself: every method raises. *)
Definition base_BlockAccessor : BlockAccessor unit := {|
  num_rows := fun _ => Raise NotImplementedError;
  to_pandas := fun _ => Raise NotImplementedError;
  to_numpy := fun _ _ => Raise NotImplementedError;
  to_arrow := fun _ => Raise NotImplementedError;
  to_block := fun _ => Raise NotImplementedError;
  to_default_override := None;
  size_bytes := fun _ => Raise NotImplementedError;
  schema := fun _ => Raise NotImplementedError
|}.

Section Accessor.
Context {Self : Type} `{BlockAccessor Self}.

Definition to_default (self : Self) : outcome pyval :=
  match to_default_override with
  | Some overriding => overriding self
  | None => to_block self
  end.

Definition to_batch_format (self : Self) (batch_format : option string)
  : outcome pyval :=
  match batch_format with
  | None => to_block self
  | Some fmt =>
      if String.eqb fmt "default" || String.eqb fmt "native" then
        to_default self
      else if String.eqb fmt "pandas" then to_pandas self
      else if String.eqb fmt "pyarrow" then to_arrow self
      else if String.eqb fmt "numpy" then to_numpy self None
      else
        Raise (ValueError
          ("The batch format must be one of "
           ++ repr_list VALID_BATCH_FORMATS ++ ", got: "
           ++ fmt))
  end.

Definition get_metadata (self : Self) (input_files : option (list string))
    (exec_stats : option BlockExecStats.t) : outcome BlockMetadata.t :=
  n ← num_rows self;
  sz ← size_bytes self;
  sch ← schema self;
  BlockMetadata.__init__ (Some n) sz (Some sch) input_files exec_stats.

End Accessor.

(** ** Dispatch (lines 367-445) *)

(** The accessors [for_block] builds. *)
Inductive accessor : Type :=
| ArrowBlockAccessor (table : pyval)
| PandasBlockAccessor (df : pyval).

(** Functions of other modules that the dispatchers call. *)
Record Collaborators : Type := {
  _truncated_repr : pyval -> string;
  format_ : pyval -> string;
  _check_pyarrow_version : outcome unit;
  import_ : string -> outcome unit;
  _table_from_pydict : pyval -> outcome pyval;
  numpy_to_block : pyval -> outcome pyval;
  ArrowBlockAccessor_from_bytes : pyval -> outcome accessor
}.

(** A conversion that was started, and on which batch. *)
Inductive conversion : Type :=
| ToArrow (batch : pyval)
| ToPandas (batch : pyval).

(** Process state [batch_to_block] acts on: the keys [log_once] has seen,
    the warnings written to the logger, and, as a record of what ran, the
    conversions started (oldest first). *)
Record World : Type := {
  logged : gset string;
  warnings : list string;
  conversions : list conversion
}.

Definition World0 : World :=
  {| logged := ∅; warnings := []; conversions := [] |}.

(** Modelled from the spec: [ray.util.log_once], which is not among the
    sources.  The registry starts empty, a key is checked and set in one
    step, and it is never reset. *)
Definition log_once (key : string) (w : World) : bool * World :=
  if decide (key ∈ logged w) then (false, w)
  else (true, {| logged := {[ key ]} ∪ logged w;
                 warnings := warnings w;
                 conversions := conversions w |}).

Definition logger_warning (msg : string) (w : World) : World :=
  {| logged := logged w;
     warnings := warnings w ++ [msg];
     conversions := conversions w |}.

Definition started (c : conversion) (w : World) : World :=
  {| logged := logged w;
     warnings := warnings w;
     conversions := conversions w ++ [c] |}.

Section Dispatch.
Variable ext : Collaborators.

Definition batch_to_arrow_block (batch : pyval) (w : World)
  : outcome pyval * World :=
  (_table_from_pydict ext batch, started (ToArrow batch) w).

Definition batch_to_pandas_block (batch : pyval) (w : World)
  : outcome pyval * World :=
  (numpy_to_block ext batch, started (ToPandas batch) w).

Definition batch_to_block (batch : pyval) (block_type : option BlockType)
    (w : World) : outcome pyval * World :=
  if isinstance batch c_ndarray then
    (Raise (ValueError
       ("Error validating " ++ _truncated_repr ext batch ++ ": "
        ++ "Standalone numpy arrays are not "
        ++ "allowed in Ray 2.5. Return a dict of field -> array, "
        ++ "e.g., `{'data': array}` instead of `array`.")), w)
  else if isinstance batch c_Mapping then
    match block_type with
    | None | Some ARROW =>
        match batch_to_arrow_block batch w with
        | (Raise (ArrowConversionError d), w1) =>
            let e := ArrowConversionError d in
            let (first, w2) := log_once "_fallback_to_pandas_block_warning" w1 in
            let w3 :=
              if first then
                logger_warning
                  ("Failed to convert batch to Arrow due to: "
                   ++ str_of_exn e ++ "; "
                   ++ "falling back to Pandas block") w2
              else w2 in
            match block_type with
            | None => batch_to_pandas_block batch w3
            | Some _ => (Raise e, w3)
            end
        | returned_or_other => returned_or_other
        end
    | Some other =>
        match assert_ (BlockType_eqb other PANDAS) with
        | Raise e => (Raise e, w)
        | Return _ => batch_to_pandas_block batch w
        end
    end
  else (Return batch, w).

Definition for_block (block : pyval) : outcome accessor :=
  _ ← _check_pyarrow_version ext;
  _ ← import_ ext "pandas";
  _ ← import_ ext "pyarrow";
  if isinstance block c_pa_Table then
    Return (ArrowBlockAccessor block)
  else if isinstance block c_pd_DataFrame then
    Return (PandasBlockAccessor block)
  else if isinstance block c_bytes then
    ArrowBlockAccessor_from_bytes ext block
  else if isinstance block c_list then
    Raise (ValueError
      ("Error validating " ++ _truncated_repr ext block ++ ": "
       ++ "Standalone Python objects are not "
       ++ "allowed in Ray 2.5. To use Python objects in a dataset, "
       ++ "wrap them in a dict of numpy arrays, e.g., "
       ++ "return `{'item': batch}` instead of just `batch`."))
  else
    Raise (TypeError
      ("Not a block type: " ++ format_ ext block
       ++ " (" ++ str_of_type (type_of block) ++ ")")).

End Dispatch.

(** The state the handler of lines 387-392 leaves: the key is registered
    and, the first time, the warning is written. *)
Definition warn_fallback_once (e : pyexn) (w : World) : World :=
  let (first, w1) := log_once "_fallback_to_pandas_block_warning" w in
  if first then
    logger_warning
      ("Failed to convert batch to Arrow due to: " ++ str_of_exn e ++ "; "
       ++ "falling back to Pandas block") w1
  else w1.

(** ** A small instance to run the definitions on

    Engines over column mappings: the Arrow engine refuses columns of
    unequal length, the pandas engine takes anything. *)

Module Toy.

Definition data_repr (d : pydata) : string :=
  match d with
  | DUnit => "None"
  | DInt _ => "<int>"
  | DStr s => repr_str s
  | DBytes _ => "b'...'"
  | DSeq _ => "[...]"
  | DColumns _ => "{...}"
  end.

Fixpoint same_length (n : nat) (cols : list (string * list Z)) : bool :=
  match cols with
  | [] => true
  | (_, xs) :: rest => Nat.eqb (length xs) n && same_length n rest
  end.

Definition rectangular (cols : list (string * list Z)) : bool :=
  match cols with
  | [] => true
  | (_, xs) :: rest => same_length (length xs) rest
  end.

Definition arrow_engine (batch : pyval) : outcome pyval :=
  match py_data batch with
  | DColumns cols =>
      if rectangular cols then Return (Table_ cols)
      else Raise (ArrowConversionError (data_repr (py_data batch)))
  | _ => Raise (TypeError "not a mapping")
  end.

Definition pandas_engine (batch : pyval) : outcome pyval :=
  match py_data batch with
  | DColumns cols => Return (DataFrame_ cols)
  | _ => Raise (TypeError "not a mapping")
  end.

Definition ext : Collaborators := {|
  _truncated_repr := fun v => data_repr (py_data v);
  format_ := fun v => data_repr (py_data v);
  _check_pyarrow_version := Return tt;
  import_ := fun _ => Return tt;
  _table_from_pydict := arrow_engine;
  numpy_to_block := pandas_engine;
  ArrowBlockAccessor_from_bytes :=
    fun b => Return (ArrowBlockAccessor (Table_ []))
|}.

(** An accessor over a block that answers every conversion and inherits
    [to_default]. *)
Definition Accessor : BlockAccessor pyval := {|
  num_rows := fun _ => Return 0%Z;
  to_pandas := fun b => Return (PyVal (PyType c_pd_DataFrame [c_pd_DataFrame; c_object]) (py_data b));
  to_numpy := fun b _ => Return (PyVal (PyType c_dict [c_dict; c_Mapping; c_object]) (py_data b));
  to_arrow := fun b => Return (PyVal (PyType c_pa_Table [c_pa_Table; c_object]) (py_data b));
  to_block := fun b => Return b;
  to_default_override := None;
  size_bytes := fun _ => Return (int_ 0);
  schema := fun _ => Return None_
|}.

Definition host (maxrss : option Z) : Host := {|
  perf_counter := Float.mk 5 (-1);
  process_time := Float.mk 3 (-2);
  resource := maxrss;
  psutil_rss := 52428800;
  get_node_id := "node-1"
|}.

End Toy.

(** ** Batch size (lines 126-132) and further operations *)

(** What callers pass as a batch size: nothing, an [int], or a string. *)
Inductive batch_size : Type :=
| size_None
| size_int (n : Z)
| size_str (s : string).

(** [DEFAULT_BATCH_SIZE] is a constant of [ray.data.context]. *)
Definition _apply_batch_size (DEFAULT_BATCH_SIZE : Z)
    (given_batch_size : batch_size) : batch_size :=
  match given_batch_size with
  | size_str s =>
      if String.eqb s "default" then size_int DEFAULT_BATCH_SIZE
      else given_batch_size
  | _ => given_batch_size
  end.

(** [BlockExecStats.builder()] *)
Definition BlockExecStats_builder (host : Host) : _BlockExecStatsBuilder.t :=
  _BlockExecStatsBuilder.__init__ host.

(** Order of two readings, by value. *)
Definition Float_leb (x y : Float.t) : bool :=
  let e := Z.min (Float.expo x) (Float.expo y) in
  (Float.mant x * 2 ^ (Float.expo x - e)
   <=? Float.mant y * 2 ^ (Float.expo y - e))%Z.

(** A run of [batch_to_block] calls in one process; the results are
    dropped and the state is carried on. *)
Fixpoint batch_to_block_run (ext : Collaborators)
    (calls : list (pyval * option BlockType)) (w : World) : World :=
  match calls with
  | [] => w
  | (batch, block_type) :: rest =>
      batch_to_block_run ext rest (snd (batch_to_block ext batch block_type w))
  end.

(** The key [batch_to_block] passes to [log_once]. *)
Definition fallback_key : string := "_fallback_to_pandas_block_warning".

(** Collaborators of a process whose pyarrow is too old. *)
Definition old_pyarrow : Collaborators := {|
  _truncated_repr := _truncated_repr Toy.ext;
  format_ := format_ Toy.ext;
  _check_pyarrow_version := Raise (ImportError "pyarrow is too old");
  import_ := import_ Toy.ext;
  _table_from_pydict := _table_from_pydict Toy.ext;
  numpy_to_block := numpy_to_block Toy.ext;
  ArrowBlockAccessor_from_bytes := ArrowBlockAccessor_from_bytes Toy.ext
|}.

(** An accessor whose [size_bytes] answers with a [numpy.int64]. *)
Definition numpy_sized : BlockAccessor pyval := {|
  num_rows := fun _ => Return 3%Z;
  to_pandas := @to_pandas pyval Toy.Accessor;
  to_numpy := @to_numpy pyval Toy.Accessor;
  to_arrow := @to_arrow pyval Toy.Accessor;
  to_block := @to_block pyval Toy.Accessor;
  to_default_override := None;
  size_bytes := fun _ => Return (np_int64_ 24);
  schema := fun _ => Return None_
|}.

(** * Properties *)

(** ** The definitions at work *)

Example batch_xs_arrow :
  fst (batch_to_block Toy.ext (dict_ [("x", [1; 2; 3]%Z)]) None World0)
  = Return (Table_ [("x", [1; 2; 3]%Z)]).
Proof. vm_compute. reflexivity. Qed.

Example batch_xs_pandas :
  fst (batch_to_block Toy.ext (dict_ [("x", [1; 2; 3]%Z)]) (Some PANDAS) World0)
  = Return (DataFrame_ [("x", [1; 2; 3]%Z)]).
Proof. vm_compute. reflexivity. Qed.

Example batch_ragged_falls_back :
  fst (batch_to_block Toy.ext (dict_ [("x", [1; 2]%Z); ("y", [1]%Z)]) None World0)
  = Return (DataFrame_ [("x", [1; 2]%Z); ("y", [1]%Z)]).
Proof. vm_compute. reflexivity. Qed.

Example build_64MB :
  BlockExecStats.max_rss_bytes
    (fst (_BlockExecStatsBuilder.build
            (_BlockExecStatsBuilder.__init__ (Toy.host (Some 65536%Z)))
            (Toy.host (Some 65536%Z))))
  = 65536000%Z.
Proof. vm_compute. reflexivity. Qed.

(** ** Strings *)

Lemma contains_unfold (n h : string) :
  contains n h
  = starts_with n h
    || match h with EmptyString => false | String _ h' => contains n h' end.
Proof. destruct h; reflexivity. Qed.

Lemma starts_with_app (n t : string) : starts_with n (n ++ t) = true.
Proof.
  induction n as [|a n IH]; simpl; [reflexivity|].
  rewrite Ascii.eqb_refl. exact IH.
Qed.

Lemma contains_here (n t : string) : contains n (n ++ t) = true.
Proof. rewrite contains_unfold, starts_with_app. reflexivity. Qed.

Lemma contains_skip (n p t : string) :
  contains n t = true -> contains n (p ++ t) = true.
Proof.
  intros Ht. induction p as [|a p IH]; simpl; [exact Ht|].
  rewrite IH. apply orb_true_r.
Qed.

Lemma contains_mid (n p t : string) : contains n (p ++ n ++ t) = true.
Proof. apply contains_skip, contains_here. Qed.

(** ** Batch formats *)

Example apply_default :
  _apply_batch_format (Some "default") = Return (Some "numpy").
Proof. reflexivity. Qed.

Lemma VALID_BATCH_FORMATS_repr :
  repr_list VALID_BATCH_FORMATS = "['pandas', 'pyarrow', 'numpy', None]".
Proof. reflexivity. Qed.

Ltac case_eqb s lit :=
  destruct (String.eqb_spec s lit); [subst s; try reflexivity|].

(** C4, as stated, at ["native"]: the validator raises. *)
Lemma apply_batch_format_rejects_native :
  py_in (Some "native") dispatched_batch_formats = true /\
  _apply_batch_format (Some "native")
  = Raise (ValueError
      "The given batch format native isn't allowed (must be one of ['pandas', 'pyarrow', 'numpy', None]).") /\
  ~ (exists r, _apply_batch_format (Some "native") = Return r).
Proof.
  split; [reflexivity|]. split; [reflexivity|].
  intros [r Hr]. discriminate Hr.
Qed.

(** C4, amended: [_apply_batch_format] returns exactly on [None],
    ["default"], ["pandas"], ["pyarrow"] and ["numpy"], giving back the
    value it was given except that ["default"] becomes ["numpy"]; on every
    other value, ["native"] among them, it raises a [ValueError] whose
    message gives the value and the list [VALID_BATCH_FORMATS], that is
    ['pandas', 'pyarrow', 'numpy', None]. *)
Theorem apply_batch_format_spec (given_batch_format : option string) :
  _apply_batch_format given_batch_format
  = if py_in given_batch_format accepted_batch_formats then
      Return (if opt_eqb given_batch_format (Some "default")
              then Some "numpy" else given_batch_format)
    else
      Raise (ValueError
        ("The given batch format " ++ str_opt given_batch_format
         ++ " isn't allowed (must be one of ['pandas', 'pyarrow', 'numpy', None]).")).
Proof.
  destruct given_batch_format as [s|]; [|reflexivity].
  unfold _apply_batch_format, py_in, accepted_batch_formats,
    VALID_BATCH_FORMATS, DEFAULT_BATCH_FORMAT.
  cbn [opt_eqb existsb].
  case_eqb s "default". cbn [opt_eqb existsb].
  case_eqb s "pandas".
  case_eqb s "pyarrow".
  case_eqb s "numpy".
  reflexivity.
Qed.

(** C3, as stated, at the tag ["feather"]: the error message names neither
    ["default"] nor ["native"], two tags [to_batch_format] accepts. *)
Lemma to_batch_format_message_omits_accepted_tags :
  let block := Table_ [("x", [1; 2; 3]%Z)] in
  @to_batch_format pyval Toy.Accessor block (Some "native") = Return block /\
  @to_batch_format pyval Toy.Accessor block (Some "default") = Return block /\
  exists msg,
    @to_batch_format pyval Toy.Accessor block (Some "feather")
    = Raise (ValueError msg) /\
    contains "native" msg = false /\
    contains "default" msg = false.
Proof.
  cbv zeta. split; [reflexivity|]. split; [reflexivity|].
  eexists. split; [reflexivity|]. split; vm_compute; reflexivity.
Qed.

Section AccessorFacts.
Context {Self : Type} `{BlockAccessor Self}.

(** C3, amended: [to_batch_format] returns the native block for [None],
    the default format for ["default"] and ["native"], the pandas, Arrow
    and NumPy conversions for ["pandas"], ["pyarrow"] and ["numpy"]; every
    other tag raises a [ValueError] whose message gives the list
    [VALID_BATCH_FORMATS], that is ['pandas', 'pyarrow', 'numpy', None],
    and the tag received. *)
Theorem to_batch_format_dispatch (self : Self) :
  to_batch_format self None = to_block self /\
  to_batch_format self (Some "default") = to_default self /\
  to_batch_format self (Some "native") = to_default self /\
  to_batch_format self (Some "pandas") = to_pandas self /\
  to_batch_format self (Some "pyarrow") = to_arrow self /\
  to_batch_format self (Some "numpy") = to_numpy self None /\
  forall fmt : string,
    py_in (Some fmt) dispatched_batch_formats = false ->
    to_batch_format self (Some fmt)
    = Raise (ValueError
        ("The batch format must be one of ['pandas', 'pyarrow', 'numpy', None], got: "
         ++ fmt)).
Proof.
  repeat (split; [reflexivity|]).
  intros fmt Hout. unfold to_batch_format.
  unfold py_in, dispatched_batch_formats in Hout. cbn [existsb opt_eqb] in Hout.
  repeat (apply orb_false_elim in Hout; destruct Hout as [? Hout]).
  repeat match goal with E : String.eqb fmt _ = false |- _ => rewrite E; clear E end.
  reflexivity.
Qed.

(** C9: an accessor that inherits [to_default] answers [to_block] for it,
    and so [to_batch_format] gives the result of [to_block] for [None],
    ["default"] and ["native"] alike. *)
Theorem to_batch_format_inherited_default (self : Self) :
  @to_default_override Self _ = None ->
  to_default self = to_block self /\
  to_batch_format self None = to_block self /\
  to_batch_format self (Some "default") = to_block self /\
  to_batch_format self (Some "native") = to_block self.
Proof.
  intros Hbase.
  assert (Hd : to_default self = to_block self)
    by (unfold to_default; rewrite Hbase; reflexivity).
  repeat split; try exact Hd; reflexivity.
Qed.

End AccessorFacts.

Lemma to_batch_format_dispatch_witness :
  py_in (Some "feather") dispatched_batch_formats = false /\
  @to_batch_format pyval Toy.Accessor (Table_ []) (Some "feather")
  = Raise (ValueError
      "The batch format must be one of ['pandas', 'pyarrow', 'numpy', None], got: feather").
Proof.
  split; [reflexivity|].
  apply (proj2 (proj2 (proj2 (proj2 (proj2 (proj2
    (@to_batch_format_dispatch pyval Toy.Accessor (Table_ [])))))))).
  reflexivity.
Defined.

Lemma to_batch_format_inherited_default_witness :
  @to_default_override unit base_BlockAccessor = None /\
  @to_batch_format unit base_BlockAccessor tt (Some "native")
  = Raise NotImplementedError /\
  @to_batch_format pyval Toy.Accessor (Table_ []) (Some "native")
  = Return (Table_ []).
Proof.
  split; [reflexivity|]. split.
  - apply (proj2 (proj2 (proj2
      (@to_batch_format_inherited_default unit base_BlockAccessor tt eq_refl)))).
  - apply (proj2 (proj2 (proj2
      (@to_batch_format_inherited_default pyval Toy.Accessor (Table_ []) eq_refl)))).
Defined.

(** ** Block metadata *)

Lemma isinstance_np_int64_int (n : Z) : isinstance (np_int64_ n) c_int = false.
Proof. reflexivity. Qed.

Lemma post_init_outcome (self : BlockMetadata.t) :
  BlockMetadata.__post_init__ self
  = let normalized :=
      BlockMetadata.mk (BlockMetadata.num_rows self)
        (BlockMetadata.size_bytes self) (BlockMetadata.schema self)
        (Some (match BlockMetadata.input_files self with
               | None => []
               | Some files => files
               end))
        (BlockMetadata.exec_stats self) in
    if is_None (BlockMetadata.size_bytes self)
       || isinstance (BlockMetadata.size_bytes self) c_int
    then Return normalized else Raise AssertionError.
Proof.
  destruct self as [nr sz sch [files|] es]; unfold BlockMetadata.__post_init__;
    cbn [BlockMetadata.input_files BlockMetadata.size_bytes
         BlockMetadata.num_rows BlockMetadata.schema BlockMetadata.exec_stats];
    destruct (is_None sz); cbn [negb orb]; try reflexivity;
    destruct (isinstance sz c_int); reflexivity.
Qed.

(** C6: with a [size_bytes] that is not [None], construction succeeds
    exactly when [size_bytes] is an instance of [int], and raises
    [AssertionError] otherwise, as it does for every [numpy.int64]; with
    [size_bytes] [None] it succeeds, whatever [num_rows] and [schema] are,
    [None] included. *)
Theorem BlockMetadata_size_bytes_int
    (num_rows : option Z) (size_bytes : pyval) (schema : option pyval)
    (input_files : option (list string))
    (exec_stats : option BlockExecStats.t) :
  (is_None size_bytes = false ->
     ((exists m, BlockMetadata.__init__ num_rows size_bytes schema
                   input_files exec_stats = Return m)
      <-> isinstance size_bytes c_int = true) /\
     (isinstance size_bytes c_int = false ->
      BlockMetadata.__init__ num_rows size_bytes schema input_files exec_stats
      = Raise AssertionError)) /\
  (forall n : Z,
     BlockMetadata.__init__ num_rows (np_int64_ n) schema input_files exec_stats
     = Raise AssertionError) /\
  (is_None size_bytes = true ->
     exists m, BlockMetadata.__init__ num_rows size_bytes schema
                 input_files exec_stats = Return m) /\
  (exists m, BlockMetadata.__init__ None None_ None input_files exec_stats
             = Return m).
Proof.
  unfold BlockMetadata.__init__. split; [|split; [|split]].
  - intros Hsome. rewrite post_init_outcome.
    cbn [BlockMetadata.size_bytes]. rewrite Hsome. cbn [orb].
    destruct (isinstance size_bytes c_int); split.
    + split; [reflexivity | intros _; eexists; reflexivity].
    + discriminate.
    + split; [intros [m Hm]; discriminate Hm | discriminate].
    + reflexivity.
  - intros n. rewrite post_init_outcome. reflexivity.
  - intros Hnone. rewrite post_init_outcome.
    cbn [BlockMetadata.size_bytes]. rewrite Hnone. eexists. reflexivity.
  - rewrite post_init_outcome. eexists. reflexivity.
Qed.

Lemma BlockMetadata_size_bytes_int_witness :
  is_None (int_ 4096) = false /\
  isinstance (int_ 4096) c_int = true /\
  exists m, BlockMetadata.__init__ (Some 8%Z) (int_ 4096) None None None
            = Return m.
Proof.
  split; [reflexivity|]. split; [reflexivity|].
  apply (proj1 (proj1 (BlockMetadata_size_bytes_int
                         (Some 8%Z) (int_ 4096) None None None) eq_refl)).
  reflexivity.
Defined.

(** C7: a constructed [BlockMetadata] has the empty list for
    [input_files] when [None] was passed, and the list passed otherwise;
    the field is never [None]. *)
Theorem BlockMetadata_input_files_normalized
    (num_rows : option Z) (size_bytes : pyval) (schema : option pyval)
    (input_files : option (list string))
    (exec_stats : option BlockExecStats.t) (m : BlockMetadata.t) :
  BlockMetadata.__init__ num_rows size_bytes schema input_files exec_stats
  = Return m ->
  BlockMetadata.input_files m
  = Some (match input_files with None => [] | Some files => files end)
  /\ BlockMetadata.input_files m <> None.
Proof.
  unfold BlockMetadata.__init__. rewrite post_init_outcome.
  cbn [BlockMetadata.size_bytes BlockMetadata.input_files
       BlockMetadata.num_rows BlockMetadata.schema BlockMetadata.exec_stats].
  destruct (is_None size_bytes || isinstance size_bytes c_int);
    [|discriminate].
  intros Hm. injection Hm as <-. split; [reflexivity | discriminate].
Qed.

Lemma BlockMetadata_input_files_normalized_witness :
  let unknown := BlockMetadata.mk (Some 8%Z) (int_ 4096) None (Some []) None in
  let known :=
    BlockMetadata.mk None None_ None (Some ["a.csv"; "b.csv"]) None in
  BlockMetadata.__init__ (Some 8%Z) (int_ 4096) None None None
  = Return unknown /\
  BlockMetadata.input_files unknown = Some [] /\
  BlockMetadata.__init__ None None_ None (Some ["a.csv"; "b.csv"]) None
  = Return known /\
  BlockMetadata.input_files known = Some ["a.csv"; "b.csv"].
Proof.
  cbv zeta. split; [reflexivity|]. split; [|split; [reflexivity|]].
  - apply (proj1 (BlockMetadata_input_files_normalized
                    (Some 8%Z) (int_ 4096) None None None _ eq_refl)).
  - apply (proj1 (BlockMetadata_input_files_normalized
                    None None_ None (Some ["a.csv"; "b.csv"]) None _ eq_refl)).
Defined.

(** ** Execution statistics *)

Local Open Scope Z_scope.

Lemma round_small (m e : Z) :
  Z.abs m < 2 ^ 53 -> Float.round m e = Float.mk m e.
Proof.
  intros Hm. unfold Float.round.
  assert (Hk : Z.log2 (Z.abs m) - 52 <= 0).
  { destruct (Z.eq_dec (Z.abs m) 0) as [E|E].
    - rewrite E. simpl. lia.
    - assert (Z.log2 (Z.abs m) < 53) by (apply Z.log2_lt_pow2; [lia | exact Hm]).
      lia. }
  apply Z.leb_le in Hk. rewrite Hk. reflexivity.
Qed.

Lemma to_int_round_multiple_of_8 (a : Z) :
  0 <= a < 2 ^ 56 -> a mod 8 = 0 -> Float.to_int (Float.round a 0) = a.
Proof.
  intros [Hlo Hhi] H8.
  destruct (Z_lt_le_dec a (2 ^ 53)) as [Hs|Hl].
  - rewrite round_small by lia. unfold Float.to_int. simpl. lia.
  - unfold Float.round. rewrite Z.abs_eq by lia.
    assert (H53 : 53 <= Z.log2 a) by (apply Z.log2_le_pow2; lia).
    assert (H56 : Z.log2 a < 56) by (apply Z.log2_lt_pow2; lia).
    remember (Z.log2 a - 52) as k eqn:Ek.
    assert (Hsgn : Z.sgn a = 1) by (apply Z.sgn_pos; lia).
    rewrite Hsgn.
    assert (Hk : k = 1 \/ k = 2 \/ k = 3) by lia.
    destruct Hk as [-> | [-> | ->]]; cbn [Z.leb Z.compare];
      change (2 ^ 1) with 2; change (2 ^ 2) with 4; change (2 ^ 3) with 8;
      change (2 ^ (1 - 1)) with 1; change (2 ^ (2 - 1)) with 2;
      change (2 ^ (3 - 1)) with 4.
    + assert (E : a mod 2 = 0) by (Z.div_mod_to_equations; lia).
      rewrite E. cbn [Z.ltb Z.compare]. unfold Float.to_int.
      cbn [Float.expo Float.mant]. change (0 + 1) with 1.
      change (0 <=? 1) with true. cbv iota. change (2 ^ 1) with 2.
      Z.div_mod_to_equations; lia.
    + assert (E : a mod 4 = 0) by (Z.div_mod_to_equations; lia).
      rewrite E. cbn [Z.ltb Z.compare]. unfold Float.to_int.
      cbn [Float.expo Float.mant]. change (0 + 2) with 2.
      change (0 <=? 2) with true. cbv iota. change (2 ^ 2) with 4.
      Z.div_mod_to_equations; lia.
    + rewrite H8. cbn [Z.ltb Z.compare]. unfold Float.to_int.
      cbn [Float.expo Float.mant]. change (0 + 3) with 3.
      change (0 <=? 3) with true. cbv iota. change (2 ^ 3) with 8.
      Z.div_mod_to_equations; lia.
Qed.

Lemma int_mul_1e3_exact (n : Z) :
  0 <= n -> n * 125 < 2 ^ 53 ->
  Float.to_int (Float.int_mul n Float.lit_1e3) = n * 1000.
Proof.
  intros Hn Hr. unfold Float.int_mul, Float.of_int, Float.mul.
  rewrite (round_small n 0) by lia.
  cbn [Float.mant Float.expo Float.lit_1e3 Z.add].
  apply to_int_round_multiple_of_8.
  - change (2 ^ 56) with (8 * 2 ^ 53). lia.
  - replace (n * 1000) with (n * 125 * 8) by lia. apply Z.mod_mul. lia.
Qed.

(** C8: where the [resource] module is present, [build] sets
    [max_rss_bytes] to [int(ru_maxrss * 1e3)], the floating-point product
    truncated; for a non-negative reading below 2^53 / 125 (some 72
    petabytes when counted in kilobytes) the product is exact and the
    field is the reading times 1000, which is not the reading times 1024.
    Where the module is absent the field is the resident set size that
    [psutil] reports. *)
Theorem build_max_rss_bytes (self : _BlockExecStatsBuilder.t) (host : Host) :
  let stats := fst (_BlockExecStatsBuilder.build self host) in
  (forall ru_maxrss : Z,
     resource host = Some ru_maxrss ->
     BlockExecStats.max_rss_bytes stats
     = Float.to_int (Float.mul (Float.of_int ru_maxrss) Float.lit_1e3) /\
     (0 <= ru_maxrss -> ru_maxrss * 125 < 2 ^ 53 ->
      BlockExecStats.max_rss_bytes stats = ru_maxrss * 1000 /\
      (0 < ru_maxrss ->
       BlockExecStats.max_rss_bytes stats <> ru_maxrss * 1024))) /\
  (resource host = None ->
   BlockExecStats.max_rss_bytes stats = psutil_rss host).
Proof.
  cbv zeta. unfold _BlockExecStatsBuilder.build.
  cbn [fst BlockExecStats.max_rss_bytes]. split.
  - intros n Hres. rewrite Hres. split; [reflexivity|].
    intros Hn Hr. rewrite int_mul_1e3_exact by assumption.
    split; [reflexivity | lia].
  - intros Hres. rewrite Hres. reflexivity.
Qed.

Lemma build_max_rss_bytes_witness :
  let builder := _BlockExecStatsBuilder.__init__ (Toy.host (Some 65536)) in
  resource (Toy.host (Some 65536)) = Some 65536 /\
  0 <= 65536 /\ 65536 * 125 < 2 ^ 53 /\
  BlockExecStats.max_rss_bytes
    (fst (_BlockExecStatsBuilder.build builder (Toy.host (Some 65536))))
  = 65536 * 1000 /\
  resource (Toy.host None) = None /\
  BlockExecStats.max_rss_bytes
    (fst (_BlockExecStatsBuilder.build builder (Toy.host None)))
  = 52428800.
Proof.
  cbv zeta. split; [reflexivity|]. split; [lia|]. split; [reflexivity|].
  split; [|split; [reflexivity|]].
  - apply (proj1 (build_max_rss_bytes
             (_BlockExecStatsBuilder.__init__ (Toy.host (Some 65536)))
             (Toy.host (Some 65536)))
           65536 eq_refl).
    + lia.
    + reflexivity.
  - apply (proj2 (build_max_rss_bytes
             (_BlockExecStatsBuilder.__init__ (Toy.host (Some 65536)))
             (Toy.host None)) eq_refl).
Defined.

(** Past the exact range the product is rounded to 53 bits. *)
Example int_mul_1e3_rounds :
  Float.to_int (Float.int_mul 72057594037929 Float.lit_1e3)
  = 72057594037928992.
Proof. vm_compute. reflexivity. Qed.

Local Close Scope Z_scope.

(** ** Dispatch *)

Lemma conversions_started (c : conversion) (w : World) :
  conversions (started c w) = (conversions w ++ [c])%list.
Proof. reflexivity. Qed.

Lemma conversions_warn_fallback_once (e : pyexn) (w : World) :
  conversions (warn_fallback_once e w) = conversions w.
Proof.
  unfold warn_fallback_once, log_once.
  destruct (decide (_ ∈ logged w)); reflexivity.
Qed.

Section DispatchFacts.
Variable ext : Collaborators.

Lemma batch_to_block_mapping_unfold (batch : pyval)
    (block_type : option BlockType) (w : World) :
  isinstance batch c_ndarray = false ->
  isinstance batch c_Mapping = true ->
  batch_to_block ext batch block_type w
  = match block_type with
    | Some PANDAS => batch_to_pandas_block ext batch w
    | _ =>
        match _table_from_pydict ext batch with
        | Raise (ArrowConversionError d) =>
            let e := ArrowConversionError d in
            let w2 := warn_fallback_once e (started (ToArrow batch) w) in
            match block_type with
            | None => batch_to_pandas_block ext batch w2
            | Some _ => (Raise e, w2)
            end
        | other => (other, started (ToArrow batch) w)
        end
    end.
Proof.
  intros Hnd Hmap. unfold batch_to_block. rewrite Hnd, Hmap.
  destruct block_type as [[|]|]; try reflexivity;
    unfold batch_to_arrow_block, warn_fallback_once;
    destruct (_table_from_pydict ext batch) as [t|[]]; try reflexivity;
    cbv zeta; destruct (log_once _ _) as [[|] w1]; reflexivity.
Qed.

(** C1: on a mapping, with no block type or with [ARROW] the first
    conversion started is the Arrow one; when it raises an
    [ArrowConversionError], the call with no block type gives what the
    pandas conversion gives and the call with [ARROW] raises that error;
    when it returns with no block type requested, its table is the result;
    with [PANDAS] the result is what the pandas conversion gives and the
    Arrow conversion is not started. *)
Theorem batch_to_block_mapping (batch : pyval) (w : World) :
  isinstance batch c_ndarray = false ->
  isinstance batch c_Mapping = true ->
  (forall block_type,
     block_type = None \/ block_type = Some ARROW ->
     exists later,
       conversions (snd (batch_to_block ext batch block_type w))
       = (conversions w ++ ToArrow batch :: later)%list) /\
  (forall d,
     _table_from_pydict ext batch = Raise (ArrowConversionError d) ->
     fst (batch_to_block ext batch None w) = numpy_to_block ext batch /\
     conversions (snd (batch_to_block ext batch None w))
     = (conversions w ++ [ToArrow batch; ToPandas batch])%list /\
     fst (batch_to_block ext batch (Some ARROW) w)
     = Raise (ArrowConversionError d)) /\
  (forall table,
     _table_from_pydict ext batch = Return table ->
     fst (batch_to_block ext batch None w) = Return table /\
     conversions (snd (batch_to_block ext batch None w))
     = (conversions w ++ [ToArrow batch])%list) /\
  fst (batch_to_block ext batch (Some PANDAS) w) = numpy_to_block ext batch /\
  conversions (snd (batch_to_block ext batch (Some PANDAS) w))
  = (conversions w ++ [ToPandas batch])%list.
Proof.
  intros Hnd Hmap.
  pose proof (fun bt => batch_to_block_mapping_unfold batch bt w Hnd Hmap) as U.
  split; [|split; [|split; [|split]]].
  - intros bt [-> | ->]; rewrite U;
      destruct (_table_from_pydict ext batch) as [t|[]];
      cbv zeta; try (exists []; reflexivity).
    + exists [ToPandas batch]. unfold batch_to_pandas_block.
      cbn [snd]. rewrite conversions_started, conversions_warn_fallback_once,
        conversions_started, <- app_assoc. reflexivity.
    + exists []. cbn [snd].
      rewrite conversions_warn_fallback_once, conversions_started. reflexivity.
  - intros d Hd. rewrite !U, Hd. cbv zeta. unfold batch_to_pandas_block.
    cbn [fst snd]. split; [reflexivity|]. split; [|reflexivity].
    rewrite conversions_started, conversions_warn_fallback_once,
      conversions_started, <- app_assoc. reflexivity.
  - intros t Ht. rewrite U, Ht. split; reflexivity.
  - rewrite U. reflexivity.
  - rewrite U. reflexivity.
Qed.

(** C5: a bare [numpy.ndarray] makes [batch_to_block] raise a
    [ValueError], not a [TypeError], whatever block type is requested; the
    message holds the truncated representation of the array and tells the
    caller to return a dict of field to array. *)
Theorem batch_to_block_rejects_ndarray (batch : pyval)
    (block_type : option BlockType) (w : World) :
  isinstance batch c_ndarray = true ->
  exists msg,
    batch_to_block ext batch block_type w = (Raise (ValueError msg), w) /\
    (forall other, fst (batch_to_block ext batch block_type w)
                   <> Raise (TypeError other)) /\
    contains (_truncated_repr ext batch) msg = true /\
    contains "Return a dict of field -> array, e.g., `{'data': array}` instead of `array`."
      msg = true.
Proof.
  intros Hnd. unfold batch_to_block. rewrite Hnd. eexists.
  split; [reflexivity|]. split; [discriminate|]. split.
  - apply contains_mid.
  - do 2 apply contains_skip. vm_compute. reflexivity.
Qed.

(** C10: a value that is neither a [numpy.ndarray] nor a [Mapping] comes
    back from [batch_to_block] as it is, with nothing checked and for any
    requested block type. *)
Theorem batch_to_block_passes_through (batch : pyval)
    (block_type : option BlockType) (w : World) :
  isinstance batch c_ndarray = false ->
  isinstance batch c_Mapping = false ->
  batch_to_block ext batch block_type w = (Return batch, w).
Proof.
  intros Hnd Hmap. unfold batch_to_block. rewrite Hnd, Hmap. reflexivity.
Qed.

(** C2: once the pyarrow version check and the two imports have passed,
    [for_block] gives the Arrow accessor on a [pyarrow.Table], the pandas
    accessor on a [pandas.DataFrame], [ArrowBlockAccessor.from_bytes] on
    [bytes]; a [list] raises a [ValueError] that tells the caller to wrap
    the objects in a dict of numpy arrays, and anything else a [TypeError]
    whose message holds [type(block)]. *)
Theorem for_block_dispatch (block : pyval) :
  _check_pyarrow_version ext = Return tt ->
  import_ ext "pandas" = Return tt ->
  import_ ext "pyarrow" = Return tt ->
  (isinstance block c_pa_Table = true ->
   for_block ext block = Return (ArrowBlockAccessor block)) /\
  (isinstance block c_pa_Table = false ->
   isinstance block c_pd_DataFrame = true ->
   for_block ext block = Return (PandasBlockAccessor block)) /\
  (isinstance block c_pa_Table = false ->
   isinstance block c_pd_DataFrame = false ->
   isinstance block c_bytes = true ->
   for_block ext block = ArrowBlockAccessor_from_bytes ext block) /\
  (isinstance block c_pa_Table = false ->
   isinstance block c_pd_DataFrame = false ->
   isinstance block c_bytes = false ->
   isinstance block c_list = true ->
   exists msg,
     for_block ext block = Raise (ValueError msg) /\
     contains (_truncated_repr ext block) msg = true /\
     contains "wrap them in a dict of numpy arrays, e.g., return `{'item': batch}` instead of just `batch`."
       msg = true) /\
  (isinstance block c_pa_Table = false ->
   isinstance block c_pd_DataFrame = false ->
   isinstance block c_bytes = false ->
   isinstance block c_list = false ->
   exists msg,
     for_block ext block = Raise (TypeError msg) /\
     contains (str_of_type (type_of block)) msg = true).
Proof.
  intros Hver Hpd Hpa. unfold for_block.
  rewrite Hver. cbn [mbind outcome_bind obind]. rewrite Hpd, Hpa.
  cbn [mbind outcome_bind obind].
  repeat split.
  - intros ->. reflexivity.
  - intros -> ->. reflexivity.
  - intros -> -> ->. reflexivity.
  - intros -> -> -> ->. eexists. split; [reflexivity|]. split.
    + apply contains_mid.
    + do 2 apply contains_skip. vm_compute. reflexivity.
  - intros -> -> -> ->. eexists. split; [reflexivity|].
    do 2 apply contains_skip. apply contains_mid.
Qed.

End DispatchFacts.

(** The fallback warning is written the first time only. *)
Lemma warn_fallback_once_twice (e1 e2 : pyexn) (w : World) :
  warnings (warn_fallback_once e2 (warn_fallback_once e1 w))
  = warnings (warn_fallback_once e1 w).
Proof.
  unfold warn_fallback_once, log_once.
  destruct (decide (_ ∈ logged w)) as [Hin|Hout]; cbn [logged logger_warning].
  - destruct (decide (_ ∈ logged w)); [reflexivity | contradiction].
  - destruct (decide (_ ∈ _)) as [|Hno]; [reflexivity|].
    exfalso. apply Hno. set_solver.
Qed.

Lemma batch_to_block_mapping_witness :
  let ragged := dict_ [("x", [1; 2]%Z); ("y", [1]%Z)] in
  let square := dict_ [("x", [1; 2; 3]%Z)] in
  isinstance ragged c_ndarray = false /\
  isinstance ragged c_Mapping = true /\
  _table_from_pydict Toy.ext ragged = Raise (ArrowConversionError "{...}") /\
  fst (batch_to_block Toy.ext ragged None World0)
  = Return (DataFrame_ [("x", [1; 2]%Z); ("y", [1]%Z)]) /\
  fst (batch_to_block Toy.ext ragged (Some ARROW) World0)
  = Raise (ArrowConversionError "{...}") /\
  _table_from_pydict Toy.ext square = Return (Table_ [("x", [1; 2; 3]%Z)]) /\
  fst (batch_to_block Toy.ext square None World0)
  = Return (Table_ [("x", [1; 2; 3]%Z)]) /\
  conversions (snd (batch_to_block Toy.ext square (Some PANDAS) World0))
  = [ToPandas square].
Proof.
  cbv zeta.
  pose proof (batch_to_block_mapping Toy.ext
                (dict_ [("x", [1; 2]%Z); ("y", [1]%Z)]) World0
                eq_refl eq_refl) as [_ [Hfail _]].
  pose proof (batch_to_block_mapping Toy.ext
                (dict_ [("x", [1; 2; 3]%Z)]) World0
                eq_refl eq_refl) as [_ [_ [Hok [_ Hpandas]]]].
  specialize (Hfail "{...}" eq_refl) as [Hnone [_ Harrow]].
  specialize (Hok _ eq_refl) as [Htable _].
  repeat split; assumption.
Defined.

Lemma batch_to_block_rejects_ndarray_witness :
  isinstance (ndarray_ [1; 2; 3]%Z) c_ndarray = true /\
  exists msg,
    batch_to_block Toy.ext (ndarray_ [1; 2; 3]%Z) (Some PANDAS) World0
    = (Raise (ValueError msg), World0) /\
    contains "[...]" msg = true.
Proof.
  split; [reflexivity|].
  destruct (batch_to_block_rejects_ndarray Toy.ext (ndarray_ [1; 2; 3]%Z)
              (Some PANDAS) World0 eq_refl) as [msg [Hraise [_ [Hrepr _]]]].
  exists msg. split; assumption.
Defined.

Lemma batch_to_block_passes_through_witness :
  isinstance (list_ [1; 2; 3]%Z) c_ndarray = false /\
  isinstance (list_ [1; 2; 3]%Z) c_Mapping = false /\
  batch_to_block Toy.ext (list_ [1; 2; 3]%Z) (Some ARROW) World0
  = (Return (list_ [1; 2; 3]%Z), World0) /\
  batch_to_block Toy.ext (str_ "abc") None World0
  = (Return (str_ "abc"), World0).
Proof.
  split; [reflexivity|]. split; [reflexivity|]. split.
  - apply (batch_to_block_passes_through Toy.ext (list_ [1; 2; 3]%Z)
             (Some ARROW) World0 eq_refl eq_refl).
  - apply (batch_to_block_passes_through Toy.ext (str_ "abc")
             None World0 eq_refl eq_refl).
Defined.

Lemma for_block_dispatch_witness :
  _check_pyarrow_version Toy.ext = Return tt /\
  import_ Toy.ext "pandas" = Return tt /\
  import_ Toy.ext "pyarrow" = Return tt /\
  for_block Toy.ext (Table_ [("x", [1]%Z)])
  = Return (ArrowBlockAccessor (Table_ [("x", [1]%Z)])) /\
  for_block Toy.ext (DataFrame_ [("x", [1]%Z)])
  = Return (PandasBlockAccessor (DataFrame_ [("x", [1]%Z)])) /\
  (exists msg, for_block Toy.ext (list_ [1; 2]%Z) = Raise (ValueError msg)) /\
  (exists msg, for_block Toy.ext (int_ 7) = Raise (TypeError msg) /\
               contains "<class 'int'>" msg = true).
Proof.
  split; [reflexivity|]. split; [reflexivity|]. split; [reflexivity|].
  split; [|split; [|split]].
  - apply (proj1 (for_block_dispatch Toy.ext (Table_ [("x", [1]%Z)])
                    eq_refl eq_refl eq_refl) eq_refl).
  - apply (proj1 (proj2 (for_block_dispatch Toy.ext (DataFrame_ [("x", [1]%Z)])
                           eq_refl eq_refl eq_refl)) eq_refl eq_refl).
  - destruct (proj1 (proj2 (proj2 (proj2
        (for_block_dispatch Toy.ext (list_ [1; 2]%Z) eq_refl eq_refl eq_refl))))
        eq_refl eq_refl eq_refl eq_refl) as [msg [Hmsg _]].
    exists msg. exact Hmsg.
  - apply (proj2 (proj2 (proj2 (proj2
        (for_block_dispatch Toy.ext (int_ 7) eq_refl eq_refl eq_refl))))
        eq_refl eq_refl eq_refl eq_refl).
Defined.

(** * Further properties *)

(** ** Batch formats and sizes *)

(** X1: what [_apply_batch_format] returns is a member of
    [VALID_BATCH_FORMATS], is never ["default"], and is returned again
    unchanged when validated a second time. *)
Theorem apply_batch_format_idempotent (given resolved : option string) :
  _apply_batch_format given = Return resolved ->
  py_in resolved VALID_BATCH_FORMATS = true /\
  resolved <> Some "default" /\
  _apply_batch_format resolved = Return resolved.
Proof.
  destruct given as [s|]; unfold _apply_batch_format;
    cbn [opt_eqb]; [|intros [= <-]; repeat split; discriminate].
  destruct (String.eqb_spec s "default") as [->|Hd].
  - intros [= <-]. repeat split; discriminate.
  - destruct (py_in (Some s) VALID_BATCH_FORMATS) eqn:Hin;
      cbn [negb]; [|discriminate].
    intros [= <-]. split; [exact Hin|]. split; [congruence|].
    cbn [opt_eqb]. destruct (String.eqb_spec s "default"); [contradiction|].
    rewrite Hin. reflexivity.
Qed.

Lemma apply_batch_format_idempotent_witness :
  _apply_batch_format (Some "default") = Return (Some "numpy") /\
  _apply_batch_format (Some "numpy") = Return (Some "numpy").
Proof.
  split; [reflexivity|].
  apply (proj2 (proj2 (apply_batch_format_idempotent
                         (Some "default") (Some "numpy") eq_refl))).
Defined.

Section ValidatedFormat.
Context {Self : Type} `{BlockAccessor Self}.

(** X2: a format that went through [_apply_batch_format] never reaches the
    [ValueError] of [to_batch_format], nor [to_default]: [None] gives
    [to_block], ["pandas"] [to_pandas], ["pyarrow"] [to_arrow], and
    ["numpy"] as well as ["default"], which the validator resolves to
    ["numpy"], give [to_numpy]. *)
Theorem to_batch_format_after_validation (self : Self)
    (given resolved : option string) :
  _apply_batch_format given = Return resolved ->
  to_batch_format self resolved
  = match given with
    | None => to_block self
    | Some fmt =>
        if String.eqb fmt "pandas" then to_pandas self
        else if String.eqb fmt "pyarrow" then to_arrow self
        else to_numpy self None
    end.
Proof.
  destruct given as [s|]; unfold _apply_batch_format; cbn [opt_eqb];
    [|intros [= <-]; reflexivity].
  destruct (String.eqb_spec s "default") as [->|Hd].
  - intros [= <-]. reflexivity.
  - unfold py_in, VALID_BATCH_FORMATS. cbn [existsb opt_eqb].
    destruct (String.eqb_spec s "pandas") as [->|].
    + intros [= <-]. reflexivity.
    + destruct (String.eqb_spec s "pyarrow") as [->|].
      * intros [= <-]. reflexivity.
      * destruct (String.eqb_spec s "numpy") as [->|]; cbn [orb negb];
          [|discriminate].
        intros [= <-]. reflexivity.
Qed.

End ValidatedFormat.

Lemma to_batch_format_after_validation_witness :
  _apply_batch_format (Some "default") = Return (Some "numpy") /\
  @to_batch_format pyval Toy.Accessor (Table_ []) (Some "numpy")
  = @to_numpy pyval Toy.Accessor (Table_ []) None.
Proof.
  split; [reflexivity|].
  apply (@to_batch_format_after_validation pyval Toy.Accessor (Table_ [])
           (Some "default") (Some "numpy") eq_refl).
Defined.

(** X3: [_apply_batch_size] is idempotent, never returns the string
    ["default"], and gives back [None] and every [int], zero and negative
    ones too, as they are. *)
Theorem apply_batch_size_idempotent (DEFAULT_BATCH_SIZE : Z)
    (given : batch_size) :
  _apply_batch_size DEFAULT_BATCH_SIZE
    (_apply_batch_size DEFAULT_BATCH_SIZE given)
  = _apply_batch_size DEFAULT_BATCH_SIZE given /\
  _apply_batch_size DEFAULT_BATCH_SIZE given <> size_str "default" /\
  (forall n, given = size_int n ->
             _apply_batch_size DEFAULT_BATCH_SIZE given = size_int n) /\
  (given = size_None ->
   _apply_batch_size DEFAULT_BATCH_SIZE given = size_None).
Proof.
  destruct given as [|n|s]; cbn [_apply_batch_size].
  - repeat split; try discriminate; intros; congruence.
  - repeat split; try discriminate; intros; congruence.
  - destruct (String.eqb_spec s "default") as [->|Hs].
    + repeat split; try discriminate.
    + cbn [_apply_batch_size].
      destruct (String.eqb_spec s "default"); [contradiction|].
      repeat split; try discriminate. congruence.
Qed.

Lemma apply_batch_size_idempotent_witness :
  _apply_batch_size 1024 (size_int (-3)) = size_int (-3) /\
  _apply_batch_size 1024 size_None = size_None.
Proof.
  split.
  - apply (proj1 (proj2 (proj2 (apply_batch_size_idempotent 1024
                                  (size_int (-3))))) (-3)%Z eq_refl).
  - apply (proj2 (proj2 (proj2 (apply_batch_size_idempotent 1024
                                  size_None))) eq_refl).
Defined.

(** ** Block metadata *)

(** X4: construction stores [num_rows], [size_bytes], [schema] and
    [exec_stats] as passed, and what it stores satisfies the check of
    [__post_init__]: [size_bytes] is [None] or an instance of [int]. *)
Theorem BlockMetadata_fields_kept
    (num_rows : option Z) (size_bytes : pyval) (schema : option pyval)
    (input_files : option (list string))
    (exec_stats : option BlockExecStats.t) (m : BlockMetadata.t) :
  BlockMetadata.__init__ num_rows size_bytes schema input_files exec_stats
  = Return m ->
  BlockMetadata.num_rows m = num_rows /\
  BlockMetadata.size_bytes m = size_bytes /\
  BlockMetadata.schema m = schema /\
  BlockMetadata.exec_stats m = exec_stats /\
  (is_None (BlockMetadata.size_bytes m) = true \/
   isinstance (BlockMetadata.size_bytes m) c_int = true).
Proof.
  unfold BlockMetadata.__init__. rewrite post_init_outcome.
  cbn [BlockMetadata.size_bytes BlockMetadata.input_files
       BlockMetadata.num_rows BlockMetadata.schema BlockMetadata.exec_stats].
  destruct (is_None size_bytes) eqn:Hn;
    [|destruct (isinstance size_bytes c_int) eqn:Hi];
    cbn [orb]; try discriminate;
    intros [= <-]; repeat split; auto.
Qed.

Lemma BlockMetadata_fields_kept_witness :
  BlockMetadata.__init__ (Some 8%Z) (int_ 4096) None None None
  = Return (BlockMetadata.mk (Some 8%Z) (int_ 4096) None (Some []) None) /\
  BlockMetadata.size_bytes
    (BlockMetadata.mk (Some 8%Z) (int_ 4096) None (Some []) None)
  = int_ 4096.
Proof.
  split; [reflexivity|].
  apply (proj1 (proj2 (BlockMetadata_fields_kept
                         (Some 8%Z) (int_ 4096) None None None _ eq_refl))).
Defined.

(** X5: a constructed [BlockMetadata] is a fixed point of
    [__post_init__]: running the validation again returns the same
    value. *)
Theorem BlockMetadata_post_init_stable
    (num_rows : option Z) (size_bytes : pyval) (schema : option pyval)
    (input_files : option (list string))
    (exec_stats : option BlockExecStats.t) (m : BlockMetadata.t) :
  BlockMetadata.__init__ num_rows size_bytes schema input_files exec_stats
  = Return m ->
  BlockMetadata.__post_init__ m = Return m.
Proof.
  unfold BlockMetadata.__init__. rewrite !post_init_outcome.
  cbn [BlockMetadata.size_bytes BlockMetadata.input_files
       BlockMetadata.num_rows BlockMetadata.schema BlockMetadata.exec_stats].
  destruct (is_None size_bytes || isinstance size_bytes c_int) eqn:Hok;
    [|discriminate].
  intros [= <-].
  cbn [BlockMetadata.size_bytes BlockMetadata.input_files
       BlockMetadata.num_rows BlockMetadata.schema BlockMetadata.exec_stats].
  rewrite Hok. reflexivity.
Qed.

Lemma BlockMetadata_post_init_stable_witness :
  BlockMetadata.__init__ None None_ None None None
  = Return (BlockMetadata.mk None None_ None (Some []) None) /\
  BlockMetadata.__post_init__
    (BlockMetadata.mk None None_ None (Some []) None)
  = Return (BlockMetadata.mk None None_ None (Some []) None).
Proof.
  split; [reflexivity|].
  apply (BlockMetadata_post_init_stable None None_ None None None _ eq_refl).
Defined.

Section MetadataOfAccessor.
Context {Self : Type} `{BlockAccessor Self}.

(** X6: when the accessor answers [num_rows], [size_bytes] and [schema]
    and the size is an instance of [int], [get_metadata] returns metadata
    with exactly those answers, the statistics passed, and the input files
    passed or the empty list for [None]. *)
Theorem get_metadata_returns (self : Self) (n : Z) (sz sch : pyval)
    (input_files : option (list string))
    (exec_stats : option BlockExecStats.t) :
  num_rows self = Return n ->
  size_bytes self = Return sz ->
  schema self = Return sch ->
  isinstance sz c_int = true ->
  get_metadata self input_files exec_stats
  = Return (BlockMetadata.mk (Some n) sz (Some sch)
              (Some (match input_files with
                     | None => []
                     | Some files => files
                     end))
              exec_stats).
Proof.
  intros Hn Hsz Hsch Hint. unfold get_metadata.
  rewrite Hn. cbn [mbind outcome_bind obind].
  rewrite Hsz. cbn [mbind outcome_bind obind].
  rewrite Hsch. cbn [mbind outcome_bind obind].
  unfold BlockMetadata.__init__. rewrite post_init_outcome.
  cbn [BlockMetadata.size_bytes BlockMetadata.input_files
       BlockMetadata.num_rows BlockMetadata.schema BlockMetadata.exec_stats].
  rewrite Hint, orb_true_r. reflexivity.
Qed.

(** X7: [get_metadata] asks [num_rows], then [size_bytes], then [schema],
    and raises what the first failing one raises; when all three answer
    and the size is neither [None] nor an instance of [int], as with a
    [numpy.int64], it raises [AssertionError]. *)
Theorem get_metadata_raises (self : Self)
    (input_files : option (list string))
    (exec_stats : option BlockExecStats.t) :
  (forall e, num_rows self = Raise e ->
     get_metadata self input_files exec_stats = Raise e) /\
  (forall n e, num_rows self = Return n -> size_bytes self = Raise e ->
     get_metadata self input_files exec_stats = Raise e) /\
  (forall n sz e, num_rows self = Return n -> size_bytes self = Return sz ->
     schema self = Raise e ->
     get_metadata self input_files exec_stats = Raise e) /\
  (forall n sz sch, num_rows self = Return n -> size_bytes self = Return sz ->
     schema self = Return sch ->
     is_None sz = false -> isinstance sz c_int = false ->
     get_metadata self input_files exec_stats = Raise AssertionError).
Proof.
  unfold get_metadata. repeat split.
  - intros e ->. reflexivity.
  - intros n e -> ->. reflexivity.
  - intros n sz e -> -> ->. reflexivity.
  - intros n sz sch -> -> -> Hnone Hint. cbn [mbind outcome_bind obind].
    unfold BlockMetadata.__init__. rewrite post_init_outcome.
    cbn [BlockMetadata.size_bytes]. rewrite Hnone, Hint. reflexivity.
Qed.

End MetadataOfAccessor.

Lemma get_metadata_returns_witness :
  @num_rows pyval Toy.Accessor (Table_ []) = Return 0%Z /\
  @get_metadata pyval Toy.Accessor (Table_ []) None None
  = Return (BlockMetadata.mk (Some 0%Z) (int_ 0) (Some None_) (Some []) None).
Proof.
  split; [reflexivity|].
  apply (@get_metadata_returns pyval Toy.Accessor (Table_ []) 0%Z (int_ 0)
           None_ None None eq_refl eq_refl eq_refl eq_refl).
Defined.

Lemma get_metadata_raises_witness :
  @num_rows unit base_BlockAccessor tt = Raise NotImplementedError /\
  @get_metadata unit base_BlockAccessor tt None None
  = Raise NotImplementedError /\
  @size_bytes pyval numpy_sized (Table_ []) = Return (np_int64_ 24) /\
  @get_metadata pyval numpy_sized (Table_ []) None None
  = Raise AssertionError.
Proof.
  split; [reflexivity|]. split; [|split; [reflexivity|]].
  - apply (proj1 (@get_metadata_raises unit base_BlockAccessor tt None None)
             NotImplementedError eq_refl).
  - apply (proj2 (proj2 (proj2
             (@get_metadata_raises pyval numpy_sized (Table_ []) None None)))
             3%Z (np_int64_ 24) None_ eq_refl eq_refl eq_refl eq_refl eq_refl).
Defined.

(** ** Execution statistics *)

Local Open Scope Z_scope.

Lemma round_nonneg_error (m e : Z) :
  0 <= m ->
  exists q k,
    Float.round m e = Float.mk q (e + k) /\
    0 <= k /\ 0 <= q /\
    Z.abs (q * 2 ^ k - m) * 2 ^ 53 <= m.
Proof.
  intros Hm. unfold Float.round. rewrite (Z.abs_eq m) by exact Hm.
  destruct (Z.leb_spec (Z.log2 m - 52) 0) as [Hk|Hk].
  - exists m, 0. rewrite Z.add_0_r, Z.pow_0_r, Z.mul_1_r, Z.sub_diag.
    cbn [Z.abs]. repeat split; lia.
  - remember (Z.log2 m - 52) as k eqn:Ek.
    assert (Hpos : 0 < m).
    { destruct (Z.eq_dec m 0) as [->|]; [cbn in Ek; lia | lia]. }
    pose proof (Z.log2_spec m Hpos) as [Hlo _].
    assert (Hsgn : Z.sgn m = 1) by (apply Z.sgn_pos; exact Hpos).
    rewrite Hsgn, Z.mul_1_l.
    assert (Hpow : 2 ^ k = 2 * 2 ^ (k - 1)).
    { rewrite <- Z.pow_succ_r by lia. f_equal. lia. }
    assert (Hlog : 2 ^ (k - 1) * 2 ^ 53 <= m).
    { rewrite <- Z.pow_add_r by lia.
      replace (k - 1 + 53) with (Z.log2 m) by lia. exact Hlo. }
    assert (HP : 0 < 2 ^ (k - 1)) by (apply Z.pow_pos_nonneg; lia).
    pose proof (Z.div_mod m (2 ^ k) ltac:(lia)) as Hdm.
    pose proof (Z.mod_pos_bound m (2 ^ k) ltac:(lia)) as Hr.
    assert (Hq : 0 <= m / 2 ^ k) by (apply Z.div_pos; lia).
    remember (m / 2 ^ k) as q eqn:Eq.
    remember (m mod 2 ^ k) as r eqn:Er.
    remember (2 ^ (k - 1)) as P eqn:EP.
    change (2 ^ 53) with 9007199254740992 in *.
    rewrite Hpow in *.
    destruct (Z.ltb_spec r P) as [Hlt|Hge].
    + exists q, k. rewrite Hpow. repeat split; first [lia | nia].
    + destruct (Z.ltb_spec P r) as [Hgt|Hle].
      * exists (q + 1), k. rewrite Hpow. repeat split; first [lia | nia].
      * destruct (Z.even q).
        -- exists q, k. rewrite Hpow. repeat split; first [lia | nia].
        -- exists (q + 1), k. rewrite Hpow. repeat split; first [lia | nia].
Qed.

Lemma to_int_mk_nonneg_expo (q k : Z) :
  0 <= k -> Float.to_int (Float.mk q k) = q * 2 ^ k.
Proof.
  intros Hk. unfold Float.to_int. cbn [Float.expo Float.mant].
  destruct (Z.leb_spec 0 k); [reflexivity | lia].
Qed.

(** X8: [build] reports the builder's start readings and the host's end
    readings, and the wall and CPU times are their floating-point
    differences; when a clock did not run backwards, the time reported
    for it is not negative. *)
Theorem build_times (self : _BlockExecStatsBuilder.t) (host : Host) :
  let stats := fst (_BlockExecStatsBuilder.build self host) in
  BlockExecStats.start_time_s stats
  = Some (_BlockExecStatsBuilder.start_time self) /\
  BlockExecStats.end_time_s stats = Some (perf_counter host) /\
  BlockExecStats.wall_time_s stats
  = Some (Float.sub (perf_counter host)
            (_BlockExecStatsBuilder.start_time self)) /\
  BlockExecStats.cpu_time_s stats
  = Some (Float.sub (process_time host)
            (_BlockExecStatsBuilder.start_cpu self)) /\
  (Float_leb (_BlockExecStatsBuilder.start_time self) (perf_counter host)
   = true ->
   exists d, BlockExecStats.wall_time_s stats = Some d /\ 0 <= Float.mant d) /\
  (Float_leb (_BlockExecStatsBuilder.start_cpu self) (process_time host)
   = true ->
   exists d, BlockExecStats.cpu_time_s stats = Some d /\ 0 <= Float.mant d).
Proof.
  cbv zeta. unfold _BlockExecStatsBuilder.build.
  cbn [fst BlockExecStats.start_time_s BlockExecStats.end_time_s
       BlockExecStats.wall_time_s BlockExecStats.cpu_time_s
       _BlockExecStatsBuilder.start_time _BlockExecStatsBuilder.start_cpu].
  repeat (split; [reflexivity|]).
  assert (Hsub : forall x y, Float_leb x y = true ->
                             0 <= Float.mant (Float.sub y x)).
  { intros x y Hle. unfold Float_leb in Hle. apply Z.leb_le in Hle.
    unfold Float.sub. rewrite (Z.min_comm (Float.expo y) (Float.expo x)).
    destruct (round_nonneg_error
                (Float.mant y * 2 ^ (Float.expo y
                                      - Z.min (Float.expo x) (Float.expo y))
                 - Float.mant x * 2 ^ (Float.expo x
                                        - Z.min (Float.expo x) (Float.expo y)))
                (Z.min (Float.expo x) (Float.expo y)) ltac:(lia))
      as (q & k & -> & _ & Hq & _).
    exact Hq. }
  split; intros Hle; eexists; (split; [reflexivity | apply Hsub, Hle]).
Qed.

Lemma build_times_witness :
  let builder := BlockExecStats_builder (Toy.host None) in
  let later :=
    {| perf_counter := Float.mk 7 (-1); process_time := Float.mk 3 (-2);
       resource := None; psutil_rss := 1; get_node_id := "node-1" |} in
  Float_leb (_BlockExecStatsBuilder.start_time builder) (perf_counter later)
  = true /\
  exists d,
    BlockExecStats.wall_time_s
      (fst (_BlockExecStatsBuilder.build builder later)) = Some d /\
    0 <= Float.mant d.
Proof.
  cbv zeta. split; [reflexivity|].
  apply (proj1 (proj2 (proj2 (proj2 (proj2
          (build_times (BlockExecStats_builder (Toy.host None))
             {| perf_counter := Float.mk 7 (-1);
                process_time := Float.mk 3 (-2);
                resource := None; psutil_rss := 1;
                get_node_id := "node-1" |})))))).
  reflexivity.
Defined.

(** X9: for every non-negative [ru_maxrss], also where the product is
    rounded, [max_rss_bytes] is not negative and differs from the reading
    times 1000 by at most that product over 2^51. *)
Theorem build_max_rss_bytes_accuracy
    (self : _BlockExecStatsBuilder.t) (host : Host) (ru_maxrss : Z) :
  resource host = Some ru_maxrss ->
  0 <= ru_maxrss ->
  let bytes :=
    BlockExecStats.max_rss_bytes
      (fst (_BlockExecStatsBuilder.build self host)) in
  0 <= bytes /\
  Z.abs (bytes - ru_maxrss * 1000) * 2 ^ 51 <= ru_maxrss * 1000.
Proof.
  intros Hres Hn. cbv zeta. unfold _BlockExecStatsBuilder.build.
  cbn [fst BlockExecStats.max_rss_bytes]. rewrite Hres.
  unfold Float.int_mul, Float.of_int, Float.mul.
  destruct (round_nonneg_error ru_maxrss 0 Hn)
    as (q1 & k1 & -> & Hk1 & Hq1 & He1).
  cbn [Float.mant Float.expo Float.lit_1e3].
  destruct (round_nonneg_error (q1 * 1000) (0 + k1 + 0) ltac:(lia))
    as (q2 & k2 & -> & Hk2 & Hq2 & He2).
  rewrite to_int_mk_nonneg_expo by lia.
  replace (0 + k1 + 0 + k2) with (k2 + k1) by lia.
  rewrite Z.pow_add_r by lia.
  assert (HA : 1 <= 2 ^ k1).
  { pose proof (Z.pow_pos_nonneg 2 k1 ltac:(lia) Hk1). lia. }
  assert (HB : 0 <= 2 ^ k2) by (apply Z.pow_nonneg; lia).
  remember (2 ^ k1) as A eqn:EA.
  remember (q2 * 2 ^ k2) as B eqn:EB.
  assert (HB0 : 0 <= B) by (subst B; apply Z.mul_nonneg_nonneg; lia).
  assert (He2' : Z.abs (B * A - q1 * A * 1000) * 2 ^ 53 <= q1 * A * 1000).
  { replace (B * A - q1 * A * 1000) with ((B - q1 * 1000) * A) by ring.
    rewrite Z.abs_mul, (Z.abs_eq A) by lia.
    replace (q1 * A * 1000) with (q1 * 1000 * A) by ring.
    replace (Z.abs (B - q1 * 1000) * A * 2 ^ 53)
      with (Z.abs (B - q1 * 1000) * 2 ^ 53 * A) by ring.
    apply Z.mul_le_mono_nonneg_r; [lia | exact He2]. }
  replace (q2 * (2 ^ k2 * A)) with (B * A) by (subst B; ring).
  remember (B * A) as R eqn:ER.
  remember (q1 * A) as v1 eqn:Ev.
  change (2 ^ 53) with 9007199254740992 in *.
  change (2 ^ 51) with 2251799813685248.
  split.
  - subst R. apply Z.mul_nonneg_nonneg; lia.
  - lia.
Qed.

Lemma build_max_rss_bytes_accuracy_witness :
  resource (Toy.host (Some 72057594037929)) = Some 72057594037929 /\
  0 <= BlockExecStats.max_rss_bytes
         (fst (_BlockExecStatsBuilder.build
                 (BlockExecStats_builder (Toy.host None))
                 (Toy.host (Some 72057594037929)))).
Proof.
  split; [reflexivity|].
  apply (proj1 (build_max_rss_bytes_accuracy
                  (BlockExecStats_builder (Toy.host None))
                  (Toy.host (Some 72057594037929)) 72057594037929
                  eq_refl ltac:(lia))).
Defined.

(** [build] keeps the builder's start readings and stores the end
    readings in it, so the statistics of a second [build] on the same
    builder are those a first [build] would give at that moment; the
    statistics carry the node id of the runtime context, a zero UDF time
    and no task index. *)
Theorem build_repeatable (self : _BlockExecStatsBuilder.t)
    (host later : Host) :
  let built := snd (_BlockExecStatsBuilder.build self host) in
  _BlockExecStatsBuilder.start_time built
  = _BlockExecStatsBuilder.start_time self /\
  _BlockExecStatsBuilder.start_cpu built
  = _BlockExecStatsBuilder.start_cpu self /\
  _BlockExecStatsBuilder.end_time built = Some (perf_counter host) /\
  _BlockExecStatsBuilder.end_cpu built = Some (process_time host) /\
  fst (_BlockExecStatsBuilder.build built later)
  = fst (_BlockExecStatsBuilder.build self later) /\
  BlockExecStats.node_id (fst (_BlockExecStatsBuilder.build self host))
  = get_node_id host /\
  BlockExecStats.udf_time_s (fst (_BlockExecStatsBuilder.build self host))
  = Some (Float.mk 0 0) /\
  BlockExecStats.task_idx (fst (_BlockExecStatsBuilder.build self host))
  = None.
Proof. cbv zeta. repeat split. Qed.

Local Close Scope Z_scope.

(** ** Dispatch *)

Lemma batch_to_block_result (ext : Collaborators) (batch : pyval)
    (block_type : option BlockType) (w : World) :
  fst (batch_to_block ext batch block_type w)
  = if isinstance batch c_ndarray then
      Raise (ValueError
        ("Error validating " ++ _truncated_repr ext batch ++ ": "
         ++ "Standalone numpy arrays are not "
         ++ "allowed in Ray 2.5. Return a dict of field -> array, "
         ++ "e.g., `{'data': array}` instead of `array`."))
    else if isinstance batch c_Mapping then
      match block_type with
      | Some PANDAS => numpy_to_block ext batch
      | _ =>
          match _table_from_pydict ext batch with
          | Raise (ArrowConversionError d) =>
              match block_type with
              | None => numpy_to_block ext batch
              | Some _ => Raise (ArrowConversionError d)
              end
          | other => other
          end
      end
    else Return batch.
Proof.
  destruct (isinstance batch c_ndarray) eqn:Hnd;
    [unfold batch_to_block; rewrite Hnd; reflexivity|].
  destruct (isinstance batch c_Mapping) eqn:Hmap;
    [|unfold batch_to_block; rewrite Hnd, Hmap; reflexivity].
  rewrite (batch_to_block_mapping_unfold ext batch block_type w Hnd Hmap).
  destruct block_type as [[|]|]; try reflexivity;
    destruct (_table_from_pydict ext batch) as [t|[]]; reflexivity.
Qed.

Lemma batch_to_block_state (ext : Collaborators) (batch : pyval)
    (block_type : option BlockType) (w : World) :
  snd (batch_to_block ext batch block_type w)
  = if isinstance batch c_ndarray then w
    else if isinstance batch c_Mapping then
      match block_type with
      | Some PANDAS => started (ToPandas batch) w
      | _ =>
          match _table_from_pydict ext batch with
          | Raise (ArrowConversionError d) =>
              let w2 := warn_fallback_once (ArrowConversionError d)
                          (started (ToArrow batch) w) in
              match block_type with
              | None => started (ToPandas batch) w2
              | Some _ => w2
              end
          | _ => started (ToArrow batch) w
          end
      end
    else w.
Proof.
  destruct (isinstance batch c_ndarray) eqn:Hnd;
    [unfold batch_to_block; rewrite Hnd; reflexivity|].
  destruct (isinstance batch c_Mapping) eqn:Hmap;
    [|unfold batch_to_block; rewrite Hnd, Hmap; reflexivity].
  rewrite (batch_to_block_mapping_unfold ext batch block_type w Hnd Hmap).
  destruct block_type as [[|]|]; try reflexivity;
    destruct (_table_from_pydict ext batch) as [t|[]]; reflexivity.
Qed.

Lemma warn_fallback_once_logged (e : pyexn) (w : World) :
  fallback_key ∈ logged (warn_fallback_once e w) /\
  (forall key, key ∈ logged w -> key ∈ logged (warn_fallback_once e w)).
Proof.
  unfold warn_fallback_once, log_once, fallback_key.
  destruct (decide (_ ∈ logged w)) as [Hin|Hout]; cbn [logged logger_warning].
  - split; [exact Hin | auto].
  - split; [set_solver | intros key Hkey; set_solver].
Qed.

Lemma warn_fallback_once_warnings (e : pyexn) (w : World) :
  (fallback_key ∈ logged w ->
   warn_fallback_once e w = w) /\
  (fallback_key ∉ logged w ->
   warnings (warn_fallback_once e w)
   = (warnings w
      ++ [("Failed to convert batch to Arrow due to: " ++ str_of_exn e
           ++ "; " ++ "falling back to Pandas block")%string])%list).
Proof.
  unfold warn_fallback_once, log_once, fallback_key.
  destruct (decide (_ ∈ logged w)) as [Hin|Hout]; cbn [warnings logger_warning].
  - split; [reflexivity | contradiction].
  - split; [contradiction | reflexivity].
Qed.

Section MoreDispatchFacts.
Variable ext : Collaborators.

(** X10: what [batch_to_block] returns or raises does not depend on the
    logging state of the process. *)
Theorem batch_to_block_result_ignores_state (batch : pyval)
    (block_type : option BlockType) (w w' : World) :
  fst (batch_to_block ext batch block_type w)
  = fst (batch_to_block ext batch block_type w').
Proof. rewrite !batch_to_block_result. reflexivity. Qed.

(** X11: on a mapping, with no block type or with [ARROW], an exception
    of the Arrow conversion that is not an [ArrowConversionError] is
    raised to the caller as it is: no warning is written, the key is not
    registered and the pandas conversion is not started. *)
Theorem batch_to_block_other_exception (batch : pyval)
    (block_type : option BlockType) (w : World) (e : pyexn) :
  isinstance batch c_ndarray = false ->
  isinstance batch c_Mapping = true ->
  block_type <> Some PANDAS ->
  _table_from_pydict ext batch = Raise e ->
  (forall d, e <> ArrowConversionError d) ->
  batch_to_block ext batch block_type w
  = (Raise e, started (ToArrow batch) w).
Proof.
  intros Hnd Hmap Hbt He Hother.
  rewrite (batch_to_block_mapping_unfold ext batch block_type w Hnd Hmap), He.
  destruct block_type as [[|]|]; try contradiction;
    destruct e; try reflexivity; exfalso; eapply Hother; reflexivity.
Qed.

(** X12: when the Arrow conversion of a mapping raises an
    [ArrowConversionError], the key is registered afterwards; the first
    time, one warning that ends in "falling back to Pandas block" is
    written, also when [ARROW] was requested and the error is raised with
    no fallback; once the key is registered nothing is written. *)
Theorem batch_to_block_fallback_warning (batch : pyval)
    (block_type : option BlockType) (w : World) (d : string) :
  isinstance batch c_ndarray = false ->
  isinstance batch c_Mapping = true ->
  block_type <> Some PANDAS ->
  _table_from_pydict ext batch = Raise (ArrowConversionError d) ->
  let w' := snd (batch_to_block ext batch block_type w) in
  fallback_key ∈ logged w' /\
  (fallback_key ∉ logged w ->
   exists msg, warnings w' = (warnings w ++ [msg])%list /\
               contains "falling back to Pandas block" msg = true) /\
  (fallback_key ∈ logged w -> warnings w' = warnings w).
Proof.
  intros Hnd Hmap Hbt Hd. cbv zeta.
  rewrite batch_to_block_state, Hnd, Hmap.
  pose proof (warn_fallback_once_logged (ArrowConversionError d)
                (started (ToArrow batch) w)) as [Hkey _].
  pose proof (warn_fallback_once_warnings (ArrowConversionError d)
                (started (ToArrow batch) w)) as [Hsame Hnew].
  cbn [logged warnings started] in Hsame, Hnew.
  destruct block_type as [[|]|]; [|exfalso; apply Hbt; reflexivity|];
    rewrite Hd; cbv zeta; cbn [logged warnings started];
    (split; [exact Hkey|]); split.
  - intros Hout. eexists. split; [apply Hnew, Hout|].
    do 3 apply contains_skip. vm_compute. reflexivity.
  - intros Hin. rewrite (Hsame Hin). reflexivity.
  - intros Hout. eexists. split; [apply Hnew, Hout|].
    do 3 apply contains_skip. vm_compute. reflexivity.
  - intros Hin. rewrite (Hsame Hin). reflexivity.
Qed.

End MoreDispatchFacts.

Lemma batch_to_block_other_exception_witness :
  let odd := PyVal (PyType c_dict [c_dict; c_Mapping; c_object]) DUnit in
  isinstance odd c_Mapping = true /\
  _table_from_pydict Toy.ext odd = Raise (TypeError "not a mapping") /\
  batch_to_block Toy.ext odd None World0
  = (Raise (TypeError "not a mapping"), started (ToArrow odd) World0).
Proof.
  cbv zeta. split; [reflexivity|]. split; [reflexivity|].
  apply (batch_to_block_other_exception Toy.ext
           (PyVal (PyType c_dict [c_dict; c_Mapping; c_object]) DUnit)
           None World0 (TypeError "not a mapping") eq_refl eq_refl).
  - discriminate.
  - reflexivity.
  - discriminate.
Defined.

Lemma batch_to_block_fallback_warning_witness :
  let ragged := dict_ [("x", [1; 2]%Z); ("y", [1]%Z)] in
  _table_from_pydict Toy.ext ragged = Raise (ArrowConversionError "{...}") /\
  fallback_key
  ∈ logged (snd (batch_to_block Toy.ext ragged (Some ARROW) World0)).
Proof.
  cbv zeta. split; [reflexivity|].
  apply (proj1 (batch_to_block_fallback_warning Toy.ext
                  (dict_ [("x", [1; 2]%Z); ("y", [1]%Z)]) (Some ARROW) World0
                  "{...}" eq_refl eq_refl ltac:(discriminate) eq_refl)).
Defined.

Lemma batch_to_block_step (ext : Collaborators) (batch : pyval)
    (block_type : option BlockType) (w : World) :
  let w' := snd (batch_to_block ext batch block_type w) in
  (forall key, key ∈ logged w -> key ∈ logged w') /\
  (warnings w' = warnings w \/
   ((fallback_key ∉ logged w) /\ (fallback_key ∈ logged w') /\
    exists msg, warnings w' = (warnings w ++ [msg])%list)).
Proof.
  cbv zeta. rewrite batch_to_block_state.
  destruct (isinstance batch c_ndarray); [split; auto|].
  destruct (isinstance batch c_Mapping); [|split; auto].
  assert (Hfail : forall d w2,
            w2 = warn_fallback_once (ArrowConversionError d)
                   (started (ToArrow batch) w) ->
            (forall key, key ∈ logged w -> key ∈ logged w2) /\
            (warnings w2 = warnings w \/
             ((fallback_key ∉ logged w) /\ (fallback_key ∈ logged w2) /\
              exists msg, warnings w2 = (warnings w ++ [msg])%list))).
  { intros d w2 ->.
    pose proof (warn_fallback_once_logged (ArrowConversionError d)
                  (started (ToArrow batch) w)) as [Hkey Hmono].
    pose proof (warn_fallback_once_warnings (ArrowConversionError d)
                  (started (ToArrow batch) w)) as [Hsame Hnew].
    cbn [logged warnings started] in Hsame, Hnew, Hmono.
    split; [exact Hmono|].
    destruct (decide (fallback_key ∈ logged w)) as [Hin|Hout].
    - left. rewrite (Hsame Hin). reflexivity.
    - right. split; [exact Hout|]. split; [exact Hkey|].
      eexists. apply Hnew, Hout. }
  destruct block_type as [[|]|]; try (split; auto; fail);
    destruct (_table_from_pydict ext batch) as [t|[]];
    try (split; auto; fail); cbv zeta; cbn [logged warnings started];
    eapply Hfail; reflexivity.
Qed.

Section RunFacts.
Variable ext : Collaborators.

Lemma batch_to_block_run_registered (calls : list (pyval * option BlockType)) :
  forall w, fallback_key ∈ logged w ->
            warnings (batch_to_block_run ext calls w) = warnings w.
Proof.
  induction calls as [|[batch bt] rest IH]; intros w Hin; [reflexivity|].
  cbn [batch_to_block_run].
  destruct (batch_to_block_step ext batch bt w) as [Hmono Hw].
  rewrite IH by (apply Hmono, Hin).
  destruct Hw as [Hsame | [Hout _]]; [exact Hsame | contradiction].
Qed.

(** X13: over any run of [batch_to_block] calls in one process the
    fallback warning is written at most once, and not at all when the key
    was registered before the run. *)
Theorem batch_to_block_run_warns_once
    (calls : list (pyval * option BlockType)) (w : World) :
  (fallback_key ∈ logged w ->
   warnings (batch_to_block_run ext calls w) = warnings w) /\
  (length (warnings (batch_to_block_run ext calls w))
   <= S (length (warnings w)))%nat.
Proof.
  split; [apply batch_to_block_run_registered|].
  revert w. induction calls as [|[batch bt] rest IH]; intros w;
    cbn [batch_to_block_run]; [lia|].
  destruct (batch_to_block_step ext batch bt w)
    as [_ [Hsame | (_ & Hkey & msg & Hmsg)]].
  - rewrite <- Hsame. apply IH.
  - rewrite (batch_to_block_run_registered rest _ Hkey), Hmsg.
    rewrite length_app. cbn [length]. lia.
Qed.

(** X14: [batch_to_block] leaves the registered keys and the warnings as
    they were unless the batch is a mapping, the block type is not
    [PANDAS] and the Arrow conversion raises an [ArrowConversionError]. *)
Theorem batch_to_block_logging_untouched (batch : pyval)
    (block_type : option BlockType) (w : World) :
  isinstance batch c_ndarray = true \/
  isinstance batch c_Mapping = false \/
  block_type = Some PANDAS \/
  (forall d, _table_from_pydict ext batch <> Raise (ArrowConversionError d)) ->
  logged (snd (batch_to_block ext batch block_type w)) = logged w /\
  warnings (snd (batch_to_block ext batch block_type w)) = warnings w.
Proof.
  intros Hcase. rewrite batch_to_block_state.
  destruct (isinstance batch c_ndarray); [split; reflexivity|].
  destruct (isinstance batch c_Mapping); [|split; reflexivity].
  destruct Hcase as [Hc | [Hc | [-> | Hc]]]; try discriminate;
    [split; reflexivity|].
  destruct block_type as [[|]|]; try (split; reflexivity);
    destruct (_table_from_pydict ext batch) as [t|[]];
    try (split; reflexivity); exfalso; eapply Hc; reflexivity.
Qed.

End RunFacts.

Lemma batch_to_block_run_warns_once_witness :
  let ragged := dict_ [("x", [1; 2]%Z); ("y", [1]%Z)] in
  (length (warnings
             (batch_to_block_run Toy.ext
                [(ragged, None); (ragged, Some ARROW); (ragged, None)]
                World0)) <= 1)%nat.
Proof.
  cbv zeta.
  apply (proj2 (batch_to_block_run_warns_once Toy.ext
                  [(dict_ [("x", [1; 2]%Z); ("y", [1]%Z)], None);
                   (dict_ [("x", [1; 2]%Z); ("y", [1]%Z)], Some ARROW);
                   (dict_ [("x", [1; 2]%Z); ("y", [1]%Z)], None)]
                  World0)).
Defined.

Lemma batch_to_block_logging_untouched_witness :
  warnings (snd (batch_to_block Toy.ext
                   (dict_ [("x", [1; 2]%Z); ("y", [1]%Z)])
                   (Some PANDAS) World0))
  = [].
Proof.
  apply (proj2 (batch_to_block_logging_untouched Toy.ext
                  (dict_ [("x", [1; 2]%Z); ("y", [1]%Z)]) (Some PANDAS)
                  World0 (or_intror (or_intror (or_introl eq_refl))))).
Defined.

Lemma for_block_checked (ext : Collaborators) (block : pyval) :
  _check_pyarrow_version ext = Return tt ->
  import_ ext "pandas" = Return tt ->
  import_ ext "pyarrow" = Return tt ->
  for_block ext block
  = if isinstance block c_pa_Table then Return (ArrowBlockAccessor block)
    else if isinstance block c_pd_DataFrame then
      Return (PandasBlockAccessor block)
    else if isinstance block c_bytes then
      ArrowBlockAccessor_from_bytes ext block
    else if isinstance block c_list then
      Raise (ValueError
        ("Error validating " ++ _truncated_repr ext block ++ ": "
         ++ "Standalone Python objects are not "
         ++ "allowed in Ray 2.5. To use Python objects in a dataset, "
         ++ "wrap them in a dict of numpy arrays, e.g., "
         ++ "return `{'item': batch}` instead of just `batch`."))
    else
      Raise (TypeError
        ("Not a block type: " ++ format_ ext block
         ++ " (" ++ str_of_type (type_of block) ++ ")")).
Proof.
  intros Hver Hpd Hpa. unfold for_block.
  rewrite Hver. cbn [mbind outcome_bind obind]. rewrite Hpd, Hpa.
  reflexivity.
Qed.

Section ForBlockFacts.
Variable ext : Collaborators.

(** X15: when [for_block] returns an accessor, the block was a
    [pyarrow.Table] and the accessor is the Arrow one on that very block,
    or it was a [pandas.DataFrame] and the accessor is the pandas one on
    that very block, or it was [bytes] and the accessor is what
    [ArrowBlockAccessor.from_bytes] returned; for no other value does
    [for_block] return. *)
Theorem for_block_returns_only (block : pyval) (a : accessor) :
  for_block ext block = Return a ->
  (isinstance block c_pa_Table = true /\ a = ArrowBlockAccessor block) \/
  (isinstance block c_pa_Table = false /\
   isinstance block c_pd_DataFrame = true /\ a = PandasBlockAccessor block) \/
  (isinstance block c_pa_Table = false /\
   isinstance block c_pd_DataFrame = false /\
   isinstance block c_bytes = true /\
   ArrowBlockAccessor_from_bytes ext block = Return a).
Proof.
  unfold for_block.
  destruct (_check_pyarrow_version ext) as [[]|]; [|discriminate].
  cbn [mbind outcome_bind obind].
  destruct (import_ ext "pandas") as [[]|]; [|discriminate].
  destruct (import_ ext "pyarrow") as [[]|]; [|discriminate].
  cbn [mbind outcome_bind obind].
  destruct (isinstance block c_pa_Table);
    [intros [= <-]; left; split; reflexivity|].
  destruct (isinstance block c_pd_DataFrame);
    [intros [= <-]; right; left; repeat split; reflexivity|].
  destruct (isinstance block c_bytes);
    [intros Hb; right; right; repeat split; exact Hb|].
  destruct (isinstance block c_list); discriminate.
Qed.

(** X16: when the pyarrow version check raises, or it passes and the
    import of pandas raises, or both pass and the import of pyarrow
    raises, [for_block] raises that exception for every block, a
    [pyarrow.Table] included. *)
Theorem for_block_environment_failure (block : pyval) (e : pyexn) :
  (_check_pyarrow_version ext = Raise e -> for_block ext block = Raise e) /\
  (_check_pyarrow_version ext = Return tt ->
   import_ ext "pandas" = Raise e -> for_block ext block = Raise e) /\
  (_check_pyarrow_version ext = Return tt ->
   import_ ext "pandas" = Return tt ->
   import_ ext "pyarrow" = Raise e -> for_block ext block = Raise e).
Proof.
  unfold for_block. repeat split.
  - intros ->. reflexivity.
  - intros -> ->. reflexivity.
  - intros -> -> ->. reflexivity.
Qed.

(** X17: with engines that answer with their own block class (the Arrow
    one with a [pyarrow.Table], the pandas one with a [pandas.DataFrame]
    that is not a table), whatever [batch_to_block] returns for a mapping
    is accepted by [for_block]: the accessor is the Arrow or the pandas
    one on that block, the pandas one when [PANDAS] was requested and the
    Arrow one when [ARROW] was. *)
Theorem for_block_accepts_batch_to_block (batch block : pyval)
    (block_type : option BlockType) (w : World) :
  _check_pyarrow_version ext = Return tt ->
  import_ ext "pandas" = Return tt ->
  import_ ext "pyarrow" = Return tt ->
  (forall t, _table_from_pydict ext batch = Return t ->
             isinstance t c_pa_Table = true) ->
  (forall t, numpy_to_block ext batch = Return t ->
             isinstance t c_pa_Table = false /\
             isinstance t c_pd_DataFrame = true) ->
  isinstance batch c_ndarray = false ->
  isinstance batch c_Mapping = true ->
  fst (batch_to_block ext batch block_type w) = Return block ->
  (for_block ext block = Return (ArrowBlockAccessor block) \/
   for_block ext block = Return (PandasBlockAccessor block)) /\
  (block_type = Some PANDAS ->
   for_block ext block = Return (PandasBlockAccessor block)) /\
  (block_type = Some ARROW ->
   for_block ext block = Return (ArrowBlockAccessor block)).
Proof.
  intros Hver Hpd Hpa Harrow Hpandas Hnd Hmap.
  rewrite batch_to_block_result, Hnd, Hmap. intros Hres.
  assert (Hcls :
    (isinstance block c_pa_Table = true /\ block_type <> Some PANDAS) \/
    (isinstance block c_pa_Table = false /\
     isinstance block c_pd_DataFrame = true /\ block_type <> Some ARROW)).
  { destruct block_type as [[|]|].
    - left. split; [|discriminate].
      destruct (_table_from_pydict ext batch) as [t|[]] eqn:Ht;
        try discriminate.
      injection Hres as ->. apply (Harrow block eq_refl).
    - right. destruct (Hpandas block Hres) as [Ht Hdf].
      repeat split; [exact Ht | exact Hdf | discriminate].
    - destruct (_table_from_pydict ext batch) as [t|[]] eqn:Ht;
        try discriminate.
      + left. injection Hres as ->.
        split; [apply (Harrow block eq_refl) | discriminate].
      + right. destruct (Hpandas block Hres) as [Htab Hdf].
        repeat split; [exact Htab | exact Hdf | discriminate]. }
  rewrite (for_block_checked ext block Hver Hpd Hpa).
  destruct Hcls as [[-> Hbt] | (-> & -> & Hbt)].
  - split; [left; reflexivity|]. split; [intros E; contradiction | reflexivity].
  - split; [right; reflexivity|]. split; [reflexivity | intros E; contradiction].
Qed.

(** X18: a bare [list] is let through by [batch_to_block] unchanged, for
    any block type, and is stopped by [for_block], which raises a
    [ValueError] for it. *)
Theorem bare_list_stopped_by_for_block (block : pyval)
    (block_type : option BlockType) (w : World) :
  _check_pyarrow_version ext = Return tt ->
  import_ ext "pandas" = Return tt ->
  import_ ext "pyarrow" = Return tt ->
  isinstance block c_list = true ->
  isinstance block c_ndarray = false ->
  isinstance block c_Mapping = false ->
  isinstance block c_pa_Table = false ->
  isinstance block c_pd_DataFrame = false ->
  isinstance block c_bytes = false ->
  batch_to_block ext block block_type w = (Return block, w) /\
  exists msg, for_block ext block = Raise (ValueError msg).
Proof.
  intros Hver Hpd Hpa Hl Hnd Hmap Ht Hdf Hb. split.
  - unfold batch_to_block. rewrite Hnd, Hmap. reflexivity.
  - rewrite (for_block_checked ext block Hver Hpd Hpa), Ht, Hdf, Hb, Hl.
    eexists. reflexivity.
Qed.

End ForBlockFacts.

Lemma for_block_returns_only_witness :
  for_block Toy.ext (DataFrame_ [("x", [1]%Z)])
  = Return (PandasBlockAccessor (DataFrame_ [("x", [1]%Z)])) /\
  ((isinstance (DataFrame_ [("x", [1]%Z)]) c_pa_Table = true /\
    PandasBlockAccessor (DataFrame_ [("x", [1]%Z)])
    = ArrowBlockAccessor (DataFrame_ [("x", [1]%Z)])) \/
   (isinstance (DataFrame_ [("x", [1]%Z)]) c_pa_Table = false /\
    isinstance (DataFrame_ [("x", [1]%Z)]) c_pd_DataFrame = true /\
    PandasBlockAccessor (DataFrame_ [("x", [1]%Z)])
    = PandasBlockAccessor (DataFrame_ [("x", [1]%Z)])) \/
   (isinstance (DataFrame_ [("x", [1]%Z)]) c_pa_Table = false /\
    isinstance (DataFrame_ [("x", [1]%Z)]) c_pd_DataFrame = false /\
    isinstance (DataFrame_ [("x", [1]%Z)]) c_bytes = true /\
    ArrowBlockAccessor_from_bytes Toy.ext (DataFrame_ [("x", [1]%Z)])
    = Return (PandasBlockAccessor (DataFrame_ [("x", [1]%Z)])))).
Proof.
  split; [reflexivity|].
  apply (for_block_returns_only Toy.ext (DataFrame_ [("x", [1]%Z)])
           (PandasBlockAccessor (DataFrame_ [("x", [1]%Z)])) eq_refl).
Defined.

Lemma for_block_environment_failure_witness :
  _check_pyarrow_version old_pyarrow = Raise (ImportError "pyarrow is too old") /\
  for_block old_pyarrow (Table_ [("x", [1]%Z)])
  = Raise (ImportError "pyarrow is too old").
Proof.
  split; [reflexivity|].
  apply (proj1 (for_block_environment_failure old_pyarrow
                  (Table_ [("x", [1]%Z)])
                  (ImportError "pyarrow is too old")) eq_refl).
Defined.

Lemma for_block_accepts_batch_to_block_witness :
  let ragged := dict_ [("x", [1; 2]%Z); ("y", [1]%Z)] in
  let frame := DataFrame_ [("x", [1; 2]%Z); ("y", [1]%Z)] in
  fst (batch_to_block Toy.ext ragged None World0) = Return frame /\
  (for_block Toy.ext frame = Return (ArrowBlockAccessor frame) \/
   for_block Toy.ext frame = Return (PandasBlockAccessor frame)).
Proof.
  cbv zeta. split; [vm_compute; reflexivity|].
  apply (proj1 (for_block_accepts_batch_to_block Toy.ext
                  (dict_ [("x", [1; 2]%Z); ("y", [1]%Z)])
                  (DataFrame_ [("x", [1; 2]%Z); ("y", [1]%Z)])
                  None World0 eq_refl eq_refl eq_refl
                  ltac:(intros t Ht; discriminate Ht)
                  ltac:(intros t Ht; injection Ht as <-;
                        split; reflexivity)
                  eq_refl eq_refl ltac:(vm_compute; reflexivity))).
Defined.

Lemma bare_list_stopped_by_for_block_witness :
  isinstance (list_ [1; 2; 3]%Z) c_list = true /\
  batch_to_block Toy.ext (list_ [1; 2; 3]%Z) None World0
  = (Return (list_ [1; 2; 3]%Z), World0) /\
  exists msg, for_block Toy.ext (list_ [1; 2; 3]%Z) = Raise (ValueError msg).
Proof.
  split; [reflexivity|].
  apply (bare_list_stopped_by_for_block Toy.ext (list_ [1; 2; 3]%Z) None
           World0 eq_refl eq_refl eq_refl eq_refl eq_refl eq_refl eq_refl
           eq_refl eq_refl).
Defined.

(** ** The base class *)

(** X19: on the base class every call of [to_batch_format] raises:
    [NotImplementedError] for [None] and the five tags it dispatches, a
    [ValueError] for any other tag; [to_default] raises
    [NotImplementedError] as well. *)
Theorem base_to_batch_format_raises (batch_format : option string) :
  @to_default unit base_BlockAccessor tt = Raise NotImplementedError /\
  (py_in batch_format dispatched_batch_formats = true ->
   @to_batch_format unit base_BlockAccessor tt batch_format
   = Raise NotImplementedError) /\
  (py_in batch_format dispatched_batch_formats = false ->
   exists msg,
     @to_batch_format unit base_BlockAccessor tt batch_format
     = Raise (ValueError msg)).
Proof.
  split; [reflexivity|].
  destruct batch_format as [s|];
    [|split; [reflexivity | discriminate]].
  unfold to_batch_format, py_in, dispatched_batch_formats.
  cbn [existsb opt_eqb].
  destruct (String.eqb s "default"); [split; [reflexivity|discriminate]|].
  destruct (String.eqb s "native"); [split; [reflexivity|discriminate]|].
  destruct (String.eqb s "pandas"); [split; [reflexivity|discriminate]|].
  destruct (String.eqb s "pyarrow"); [split; [reflexivity|discriminate]|].
  destruct (String.eqb s "numpy"); [split; [reflexivity|discriminate]|].
  split; [discriminate | intros _; eexists; reflexivity].
Qed.

Lemma base_to_batch_format_raises_witness :
  py_in (Some "pandas") dispatched_batch_formats = true /\
  @to_batch_format unit base_BlockAccessor tt (Some "pandas")
  = Raise NotImplementedError.
Proof.
  split; [reflexivity|].
  apply (proj1 (proj2 (base_to_batch_format_raises (Some "pandas")))).
  reflexivity.
Defined.
